(** * gitlabprojects.py: pagination, commit probe, orchestration and report

    A shallow embedding of [src/gitlabprojects.py].  The script lists the
    projects a GitLab user is a member of (200 speculative page fetches
    through a thread pool), probes each project for commits of the user
    (a second pool), sorts the matches by last activity and writes a CSV.

    Worker tasks and the main thread are written in one small monad with
    a trace of events, mutable variables that survive an exception, and
    Python exceptions as an error result.  The order in which
    [as_completed] hands futures back is a parameter of each stage. *)

From Stdlib Require Import List ZArith String Ascii Bool Arith Lia.
From Stdlib Require Import Permutation Sorting.Sorted.
From Stdlib Require Import Structures.OrderedTypeEx.
Import ListNotations.

Open Scope string_scope.
Open Scope list_scope.
Open Scope Z_scope.

(** ** Python values *)

(** What [r.json()] returns: the Python image of a JSON document.  A dict
    keeps its items in insertion order.  JSON numbers are taken to be
    integers, and a str is held as its UTF-8 encoding: the order of two
    strs by code points is the order of their encodings by bytes. *)
#[warnings="-register-all"]
Inductive pyobj : Type :=
| PyNone
| PyBool (b : bool)
| PyInt (n : Z)
| PyStr (s : string)
| PyList (items : list pyobj)
| PyDict (fields : list (string * pyobj)).

(** The exceptions the script can meet; all are subclasses of
    [Exception]. *)
Inductive exn : Type :=
| RequestException (msg : string)
| HTTPError (status : Z)
| JSONDecodeError
| KeyError (key : string)
| TypeError
| OSError (msg : string).

Inductive result (A : Type) : Type :=
| Ok (x : A)
| Raise (e : exn).
Arguments Ok {A} x.
Arguments Raise {A} e.

Definition is_ok {A} (r : result A) : bool :=
  match r with Ok _ => true | Raise _ => false end.

(** [bool(v)] *)
Definition truthy (v : pyobj) : bool :=
  match v with
  | PyNone => false
  | PyBool b => b
  | PyInt n => negb (n =? 0)
  | PyStr s => negb (String.eqb s "")
  | PyList items => match items with [] => false | _ :: _ => true end
  | PyDict fields => match fields with [] => false | _ :: _ => true end
  end.

(** A byte of the form 10xxxxxx: it continues the character begun by an
    earlier byte. *)
Definition is_continuation (c : ascii) : bool :=
  let n := N_of_ascii c in ((128 <=? n) && (n <? 192))%N.

(** The characters of a str: each byte that is no continuation byte
    begins one, and takes the continuation bytes that follow it. *)
Fixpoint code_points (s : string) : list string :=
  match s with
  | EmptyString => []
  | String c s' =>
      match s' with
      | String c' _ =>
          if is_continuation c'
          then match code_points s' with
               | x :: xs => String c x :: xs
               | [] => [String c EmptyString]
               end
          else String c EmptyString :: code_points s'
      | EmptyString => [String c EmptyString]
      end
  end.

(** [len(v)] *)
Definition py_len (v : pyobj) : result nat :=
  match v with
  | PyStr s => Ok (List.length (code_points s))
  | PyList items => Ok (List.length items)
  | PyDict fields => Ok (List.length fields)
  | _ => Raise TypeError
  end.

(** [iter(v)], as [list.extend] consumes it: the items of a list, the keys
    of a dict, the characters of a str. *)
Definition py_iter (v : pyobj) : result (list pyobj) :=
  match v with
  | PyStr s => Ok (map PyStr (code_points s))
  | PyList items => Ok items
  | PyDict fields => Ok (map (fun kv => PyStr (fst kv)) fields)
  | _ => Raise TypeError
  end.

(** *** dicts with str keys *)

Definition dict := list (string * pyobj).

Fixpoint dict_get (d : dict) (key : string) : option pyobj :=
  match d with
  | [] => None
  | (k, v) :: d' => if String.eqb k key then Some v else dict_get d' key
  end.

(** [{**d, key: v}]: an existing key keeps its place and takes the new
    value, a new key goes last. *)
Fixpoint dict_set (d : dict) (key : string) (v : pyobj) : dict :=
  match d with
  | [] => [(key, v)]
  | (k, w) :: d' =>
      if String.eqb k key then (k, v) :: d' else (k, w) :: dict_set d' key v
  end.

(** [p[key]] for a str key *)
Definition subscript (p : pyobj) (key : string) : result pyobj :=
  match p with
  | PyDict fields =>
      match dict_get fields key with
      | Some v => Ok v
      | None => Raise (KeyError key)
      end
  | _ => Raise TypeError
  end.

(** An f-string, kept as its parts. *)
Inductive fpart : Type :=
| Text (s : string)
| Field (v : pyobj).

Definition fstring := list fpart.

(** ** The monad of tasks *)

(** A computation reads and updates variables of type [V], appends events
    of type [E] to a trace, and returns or raises.  The variables keep
    what was done to them before an exception. *)
Definition M (E V A : Type) : Type := V -> list E * V * result A.

Definition ret {E V A} (x : A) : M E V A := fun v => ([], v, Ok x).

Definition raise {E V A} (e : exn) : M E V A := fun v => ([], v, Raise e).

Definition bind {E V A B} (m : M E V A) (f : A -> M E V B) : M E V B :=
  fun v =>
    match m v with
    | (t, v', Ok x) =>
        match f x v' with
        | (t', v'', r) => (t ++ t', v'', r)
        end
    | (t, v', Raise e) => (t, v', Raise e)
    end.

Declare Scope task_scope.
Delimit Scope task_scope with task.
Notation "x <- m ;; k" := (bind m (fun x => k))
  (at level 100, m at next level, right associativity) : task_scope.
Notation "m ;; k" := (bind m (fun _ => k))
  (at level 100, right associativity) : task_scope.
Open Scope task_scope.

Definition lift {E V A} (r : result A) : M E V A := fun v => ([], v, r).

Definition emit {E V} (e : E) : M E V unit := fun v => ([e], v, Ok tt).

Definition get {E V} : M E V V := fun v => ([], v, Ok v).

Definition modify {E V} (f : V -> V) : M E V unit := fun v => ([], f v, Ok tt).

(** [try: m  except Exception as e: h e] *)
Definition try_except {E V A} (m : M E V A) (h : exn -> M E V A) : M E V A :=
  fun v =>
    match m v with
    | (t, v', Raise e) =>
        match h e v' with
        | (t', v'', r) => (t ++ t', v'', r)
        end
    | ok => ok
    end.

(** [for x in l: body x] *)
Fixpoint for_each {E V A} (l : list A) (body : A -> M E V unit) : M E V unit :=
  match l with
  | [] => ret tt
  | x :: l' => body x ;; for_each l' body
  end.

(** A function body with its own local variables, started at [init]. *)
Definition with_locals {E V W A} (init : W) (m : M E W A) : M E V A :=
  fun v => match m init with (t, _, r) => (t, v, r) end.

(** ** HTTP *)

Record request : Type := {
  url : fstring;
  params : dict;
  timeout : Z
}.

(** [status_code] and what [r.json()] gives; [None] when the body is not
    JSON and [r.json()] raises. *)
Record response : Type := {
  status_code : Z;
  json_body : option pyobj
}.

Inductive http_result : Type :=
| Raised (e : exn)
| Returned (r : response).

(** The statuses for which [raise_for_status] raises: 4xx and 5xx. *)
Definition http_error (st : Z) : bool := (400 <=? st) && (st <? 600).

(** A pool task: the requests it made and how it ended. *)
Definition future (A : Type) : Type := (list request * result A)%type.

Definition run_task {A} (m : M request unit A) : future A :=
  match m tt with (t, _, r) => (t, r) end.

(** What the script prints on stderr. *)
Inductive line : Type :=
| PageLine (pg : nat) (n : nat)
| Matched (checked total : nat) (path : pyobj)
| NotMatched (checked total : nat) (path : pyobj)
| Failed (checked total : nat) (path : pyobj) (e : exn).

(** [future.result()] *)
Definition future_result {V A} (f : future A) : M line V A := lift (snd f).

Definition MAX_PAGES : nat := 200.

(** The module globals of the probing stage. *)
Record globals : Type := {
  committed : list pyobj;
  checked : nat
}.

Section Script.

(** The server, the two configuration strings, and the order in which
    each pool completes its futures.  The server answers equal requests
    equally during one run. *)
Variable http : request -> http_result.
Variables base username : string.
Variable pages_completed :
  list (future (nat * pyobj)) -> list (future (nat * pyobj)).
Variable probes_completed :
  list (pyobj * future bool) -> list (pyobj * future bool).

(** [session.get(url, params=params, timeout=timeout)] *)
Definition session_get (u : fstring) (ps : dict) (tmo : Z)
  : M request unit response :=
  let req := {| url := u; params := ps; timeout := tmo |} in
  emit req ;;
  match http req with
  | Raised e => raise e
  | Returned r => ret r
  end.

(** [r.raise_for_status()] *)
Definition raise_for_status (r : response) : M request unit unit :=
  if http_error (status_code r)
  then raise (HTTPError (status_code r))
  else ret tt.

(** [r.json()] *)
Definition r_json (r : response) : M request unit pyobj :=
  match json_body r with
  | Some v => ret v
  | None => raise JSONDecodeError
  end.

Definition fetch_page (u : fstring) (ps : dict) (page : nat)
  : M request unit (nat * pyobj) :=
  let p := dict_set ps "page" (PyInt (Z.of_nat page)) in
  r <- session_get u p 30 ;;
  raise_for_status r ;;
  data <- r_json r ;;
  ret (page, data).

(** The futures of line 27, in submission order. *)
Definition page_futures (u : fstring) (ps : dict) : list (future (nat * pyobj)) :=
  map (fun p => run_task (fetch_page u ps p)) (seq 1 MAX_PAGES).

(** The body of the loop of lines 28-32; the variable is [results]. *)
Definition page_body (f : future (nat * pyobj)) : M line (list pyobj) unit :=
  r <- future_result f ;;
  let '(pg, data) := r in
  if truthy data then
    n <- lift (py_len data) ;;
    emit (PageLine pg n) ;;
    items <- lift (py_iter data) ;;
    modify (fun results => results ++ items)
  else ret tt.

Definition get_all_pages {V} (u : fstring) (ps : dict) : M line V (list pyobj) :=
  with_locals []
    (let futures := page_futures u ps in
     for_each (pages_completed futures) page_body ;;
     get).

(** The arguments of the call on line 50. *)
Definition membership_url : fstring := [Field (PyStr base); Text "/projects"].

Definition membership_params : dict :=
  [("membership", PyStr "true"); ("per_page", PyInt 100);
   ("simple", PyStr "true")].

Definition commits_url (project_id : pyobj) : fstring :=
  [Field (PyStr base); Text "/projects/"; Field project_id;
   Text "/repository/commits"].

Definition primary_request (project_id : pyobj) : request :=
  {| url := commits_url project_id;
     params := [("author", PyStr username); ("per_page", PyInt 1)];
     timeout := 10 |}.

Definition fallback_request (project_id : pyobj) : request :=
  {| url := commits_url project_id;
     params := [("all", PyStr "true"); ("per_page", PyInt 1);
                ("author", PyStr username)];
     timeout := 10 |}.

(** [r.status_code == 200 and r.json()], as a condition *)
Definition ok_and_json (r : response) : M request unit bool :=
  if status_code r =? 200 then v <- r_json r ;; ret (truthy v)
  else ret false.

Definition has_user_commits (project_id : pyobj) : M request unit bool :=
  r <- session_get (commits_url project_id)
         [("author", PyStr username); ("per_page", PyInt 1)] 10 ;;
  c <- ok_and_json r ;;
  if c then ret true
  else
    r <- session_get (commits_url project_id)
           [("all", PyStr "true"); ("per_page", PyInt 1);
            ("author", PyStr username)] 10 ;;
    ok_and_json r.

(** The futures of line 58, in submission order, each with its
    project. *)
Fixpoint probe_futures {V} (all_projects : list pyobj)
  : M line V (list (pyobj * future bool)) :=
  match all_projects with
  | [] => ret []
  | p :: rest =>
      id <- lift (subscript p "id") ;;
      futures <- probe_futures rest ;;
      ret ((p, run_task (has_user_commits id)) :: futures)
  end.

(** The body of the loop of lines 59-69. *)
Definition probe_body (total : nat) (pf : pyobj * future bool)
  : M line globals unit :=
  let '(p, f) := pf in
  modify (fun g => {| committed := committed g; checked := S (checked g) |}) ;;
  try_except
    (b <- future_result f ;;
     if b : bool then
       modify (fun g => {| committed := committed g ++ [p];
                           checked := checked g |}) ;;
       g <- get ;;
       path <- lift (subscript p "path_with_namespace") ;;
       emit (Matched (checked g) total path)
     else
       g <- get ;;
       path <- lift (subscript p "path_with_namespace") ;;
       emit (NotMatched (checked g) total path))
    (fun e =>
       g <- get ;;
       path <- lift (subscript p "path_with_namespace") ;;
       emit (Failed (checked g) total path e)).

(** Lines 57-69. *)
Definition probe_all (all_projects : list pyobj) : M line globals unit :=
  futures <- probe_futures all_projects ;;
  for_each (probes_completed futures) (probe_body (List.length all_projects)).

End Script.

(** Lines 55-56: the globals before the probing stage. *)
Definition globals0 : globals := {| committed := []; checked := 0 |}.

(** ** Sorting and the report *)

(** [p.get("last_activity_at", "")] where the result is a str.  Not
    modelled ([None]): a record that is no dict, and a value that is no
    str, for which Python goes on to compare keys of other types. *)
Definition activity_key (p : pyobj) : option string :=
  match p with
  | PyDict fields =>
      match dict_get fields "last_activity_at" with
      | None => Some ""
      | Some (PyStr s) => Some s
      | Some _ => None
      end
  | _ => None
  end.

(** The keys are computed once, before any comparison. *)
Fixpoint decorate (l : list pyobj) : option (list (string * pyobj)) :=
  match l with
  | [] => Some []
  | p :: l' =>
      match activity_key p, decorate l' with
      | Some k, Some d => Some ((k, p) :: d)
      | _, _ => None
      end
  end.

(** [list.sort(reverse=True)] on decorated items: descending keys, and
    items of equal keys stay in their original order. *)
Fixpoint insert_desc {A} (x : string * A) (l : list (string * A))
  : list (string * A) :=
  match l with
  | [] => [x]
  | y :: l' =>
      if String.ltb (fst x) (fst y) then y :: insert_desc x l' else x :: l
  end.

Definition sort_desc {A} (l : list (string * A)) : list (string * A) :=
  fold_right insert_desc [] l.

(** Line 73. *)
Definition sort_committed (c : list pyobj) : option (list pyobj) :=
  match decorate c with
  | Some d => Some (map snd (sort_desc d))
  | None => None
  end.

Definition row := list pyobj.

(** Lines 79-81: the rows handed to the CSV writer. *)
Definition write_report (c : list pyobj) : M row unit unit :=
  emit [PyStr "last_activity"; PyStr "project"; PyStr "url"] ;;
  for_each c (fun p =>
    a <- lift (subscript p "last_activity_at") ;;
    b <- lift (subscript p "path_with_namespace") ;;
    u <- lift (subscript p "web_url") ;;
    emit [a; b; u]).


(** ** Definitions used in the statements *)

(** The one request of [fetch_page u ps p]. *)
Definition page_request (u : fstring) (ps : dict) (p : nat) : request :=
  {| url := u;
     params := dict_set ps "page" (PyInt (Z.of_nat p));
     timeout := 30 |}.

(** What the server answers for page [p], as [fetch_page] returns it. *)
Definition page_outcome (http : request -> http_result) (u : fstring)
  (ps : dict) (p : nat) : result (nat * pyobj) :=
  match http (page_request u ps p) with
  | Raised e => Raise e
  | Returned r =>
      if http_error (status_code r) then Raise (HTTPError (status_code r))
      else match json_body r with
           | Some v => Ok (p, v)
           | None => Raise JSONDecodeError
           end
  end.

(** Page [p] is answered without an error status, with the array [l]. *)
Definition serves (http : request -> http_result) (u : fstring) (ps : dict)
  (p : nat) (l : list pyobj) : Prop :=
  exists r, http (page_request u ps p) = Returned r
            /\ http_error (status_code r) = false
            /\ json_body r = Some (PyList l).

(** The fetch of page [p] ends in a transport error or in a status for
    which [raise_for_status] raises. *)
Definition page_fails (http : request -> http_result) (u : fstring)
  (ps : dict) (p : nat) : Prop :=
  (exists e, http (page_request u ps p) = Raised e)
  \/ (exists r, http (page_request u ps p) = Returned r
                /\ http_error (status_code r) = true).

(** The page number of a request. *)
Definition page_param (req : request) : option pyobj :=
  dict_get (params req) "page".

(** Example servers.  Page 1 comes with status 300 and one project, the
    other pages with status 200 and no project. *)
Definition srv_status_300 (req : request) : http_result :=
  match page_param req with
  | Some (PyInt 1) =>
      Returned {| status_code := 300;
                  json_body := Some (PyList [PyDict [("id", PyInt 7)]]) |}
  | _ => Returned {| status_code := 200; json_body := Some (PyList []) |}
  end.

(** Every page is the empty array. *)
Definition srv_all_empty (req : request) : http_result :=
  Returned {| status_code := 200; json_body := Some (PyList []) |}.

(** What one completed future adds to [results], and what it prints. *)
Definition future_items (f : future (nat * pyobj)) : list pyobj :=
  match snd f with
  | Ok (_, data) =>
      if truthy data
      then match py_iter data with Ok l => l | Raise _ => [] end
      else []
  | Raise _ => []
  end.

Definition future_lines (f : future (nat * pyobj)) : list line :=
  match snd f with
  | Ok (pg, data) =>
      if truthy data
      then match py_len data with Ok n => [PageLine pg n] | Raise _ => [] end
      else []
  | Raise _ => []
  end.

(** The loop body goes through for this future. *)
Definition future_clean (f : future (nat * pyobj)) : bool :=
  match snd f with
  | Ok (_, data) =>
      if truthy data then is_ok (py_len data) && is_ok (py_iter data)
      else true
  | Raise _ => false
  end.

(** The progress lines of page [p] in a log. *)
Definition is_page_line (p : nat) (l : line) : bool :=
  match l with
  | PageLine pg _ => Nat.eqb pg p
  | _ => false
  end.

(** All the requests of the pagination stage, in submission order. *)
Definition pagination_requests (http : request -> http_result) (u : fstring)
  (ps : dict) : list request :=
  List.concat (map fst (page_futures http u ps)).

(** A listing without end: page [n] holds the one item [n].  And the same
    listing cut after page 200. *)
Definition srv_endless (req : request) : http_result :=
  match page_param req with
  | Some (PyInt n) =>
      Returned {| status_code := 200; json_body := Some (PyList [PyInt n]) |}
  | _ => Returned {| status_code := 400; json_body := None |}
  end.

Definition srv_cut (req : request) : http_result :=
  match page_param req with
  | Some (PyInt n) =>
      Returned {| status_code := 200;
                  json_body := Some (PyList (if n <=? 200 then [PyInt n] else [])) |}
  | _ => Returned {| status_code := 400; json_body := None |}
  end.

(** What one commit request decides: [r.status_code == 200 and r.json()]
    after [session.get]. *)
Definition request_matches (http : request -> http_result) (req : request)
  : result bool :=
  match http req with
  | Raised e => Raise e
  | Returned r =>
      if status_code r =? 200 then
        match json_body r with
        | Some v => Ok (truthy v)
        | None => Raise JSONDecodeError
        end
      else Ok false
  end.

(** Status 200 with a body that is truthy: a non-empty sequence. *)
Definition ok_non_empty (r : response) : Prop :=
  status_code r = 200 /\ exists v, json_body r = Some v /\ truthy v = true.


(** [key in p], for a dict [p]. *)
Definition has_field (p : pyobj) (key : string) : bool :=
  is_ok (subscript p key).

(** A record with the two fields the probing stage reads. *)
Definition is_project (p : pyobj) : bool :=
  has_field p "id" && has_field p "path_with_namespace".

(** The future submitted for project [p] on line 58. *)
Definition project_future (http : request -> http_result)
  (base username : string) (p : pyobj) : future bool :=
  match subscript p "id" with
  | Ok id => run_task (has_user_commits http base username id)
  | Raise e => ([], Raise e)
  end.

(** How the probe of project [p] ends. *)
Definition probe_outcome (http : request -> http_result)
  (base username : string) (p : pyobj) : result bool :=
  snd (project_future http base username p).

Definition probe_true (http : request -> http_result)
  (base username : string) (p : pyobj) : bool :=
  match probe_outcome http base username p with
  | Ok true => true
  | _ => false
  end.

Definition probe_raised (http : request -> http_result)
  (base username : string) (p : pyobj) : bool :=
  match probe_outcome http base username p with
  | Raise _ => true
  | Ok _ => false
  end.

Definition future_true (pf : pyobj * future bool) : bool :=
  match snd (snd pf) with
  | Ok true => true
  | _ => false
  end.

Definition future_raised (pf : pyobj * future bool) : bool :=
  match snd (snd pf) with
  | Raise _ => true
  | Ok _ => false
  end.

Definition is_failed_line (l : line) : bool :=
  match l with
  | Failed _ _ _ _ => true
  | _ => false
  end.


(** [a] does not sort after [b]: the key of [a] is not below the key of
    [b]. *)
Definition key_ge (a b : pyobj) : Prop :=
  exists ka kb, activity_key a = Some ka /\ activity_key b = Some kb
                /\ String.ltb ka kb = false.

Definition fst_ge {A} (a b : string * A) : Prop :=
  String.ltb (fst a) (fst b) = false.

(** The ids of a list of records, as [p["id"]] reads them. *)
Definition project_ids (l : list pyobj) : list (result pyobj) :=
  map (fun p => subscript p "id") l.

(** ** A small GitLab *)

Definition demo_project (n : Z) (path activity : string) : pyobj :=
  PyDict [("id", PyInt n); ("path_with_namespace", PyStr path);
          ("last_activity_at", PyStr activity);
          ("web_url", PyStr ("https://gitlab.com/" ++ path))].

Definition project1 : pyobj := demo_project 1 "team/alpha" "2024-01-05T10:00:00Z".
Definition project2 : pyobj := demo_project 2 "team/beta" "2024-03-01T09:30:00Z".
Definition project3 : pyobj := demo_project 3 "team/gamma" "2024-02-11T17:45:00Z".
Definition project4 : pyobj := demo_project 4 "team/delta" "2023-12-24T08:00:00Z".

(** A record without last_activity_at. *)
Definition project5 : pyobj :=
  PyDict [("id", PyInt 5); ("path_with_namespace", PyStr "team/epsilon");
          ("web_url", PyStr "https://gitlab.com/team/epsilon")].

Definition demo_pages (p : nat) : list pyobj :=
  match p with
  | 1%nat => [project1; project2]
  | 2%nat => [project3; project4]
  | _ => []
  end.

Definition a_commit : pyobj := PyDict [("id", PyStr "6dcb09b5")].

(** Two pages of projects.  The user has commits in project 1, and in
    project 3 as the fallback request shows them; project 2 has none;
    the connection drops for project 4; any other project answers 404. *)
Definition srv_demo (req : request) : http_result :=
  match page_param req with
  | Some (PyInt n) =>
      Returned {| status_code := 200;
                  json_body := Some (PyList (if n =? 1 then [project1; project2]
                                             else if n =? 2 then [project3; project4]
                                             else [])) |}
  | Some _ => Returned {| status_code := 400; json_body := None |}
  | None =>
      match url req with
      | [_; _; Field (PyInt 1); _] =>
          Returned {| status_code := 200; json_body := Some (PyList [a_commit]) |}
      | [_; _; Field (PyInt 2); _] =>
          Returned {| status_code := 200; json_body := Some (PyList []) |}
      | [_; _; Field (PyInt 3); _] =>
          match dict_get (params req) "all" with
          | Some _ =>
              Returned {| status_code := 200;
                          json_body := Some (PyList [a_commit]) |}
          | None => Returned {| status_code := 404; json_body := None |}
          end
      | [_; _; Field (PyInt 4); _] => Raised (RequestException "connection reset")
      | _ => Returned {| status_code := 404; json_body := None |}
      end
  end.

(** Page 3 answers 503. *)
Definition srv_broken (req : request) : http_result :=
  match page_param req with
  | Some (PyInt 3) => Returned {| status_code := 503; json_body := None |}
  | _ => srv_demo req
  end.

(** The listing moves while it is read: project 1 is on page 1 and
    again on page 2. *)
Definition srv_shifting (req : request) : http_result :=
  match page_param req with
  | Some (PyInt 1) =>
      Returned {| status_code := 200;
                  json_body := Some (PyList [project2; project1]) |}
  | Some (PyInt 2) =>
      Returned {| status_code := 200;
                  json_body := Some (PyList [project1; project3]) |}
  | _ => Returned {| status_code := 200; json_body := Some (PyList []) |}
  end.

Definition demo_url : fstring := membership_url "https://gitlab.com/api/v4".

Definition demo_params : dict := membership_params.

(** The item count a progress line of the pagination stage shows. *)
Definition line_count (l : line) : nat :=
  match l with
  | PageLine _ n => n
  | _ => 0%nat
  end.

(** A body on which [len] fails: a number or a bool. *)
Definition is_scalar (v : pyobj) : bool :=
  match v with
  | PyInt _ | PyBool _ => true
  | _ => false
  end.

(** The future of page [p], with its request and its outcome. *)
Definition page_future (http : request -> http_result) (u : fstring)
  (ps : dict) (p : nat) : future (nat * pyobj) :=
  ([page_request u ps p], page_outcome http u ps p).

(** Page 2 answers with a JSON object, page 3 with a number. *)
Definition srv_object (req : request) : http_result :=
  match page_param req with
  | Some (PyInt 2) =>
      Returned {| status_code := 200;
                  json_body := Some (PyDict [("message", PyStr "moved");
                                             ("documentation_url", PyStr "/help")]) |}
  | _ => srv_demo req
  end.

Definition srv_number (req : request) : http_result :=
  match page_param req with
  | Some (PyInt 3) =>
      Returned {| status_code := 200; json_body := Some (PyInt 42) |}
  | _ => srv_demo req
  end.

(** Page 2 is an HTML page with status 200. *)
Definition srv_html (req : request) : http_result :=
  match page_param req with
  | Some (PyInt 2) => Returned {| status_code := 200; json_body := None |}
  | _ => srv_demo req
  end.

(** Empty answers of every kind. *)
Definition srv_falsy (req : request) : http_result :=
  match page_param req with
  | Some (PyInt 1) => Returned {| status_code := 200; json_body := Some PyNone |}
  | Some (PyInt 2) =>
      Returned {| status_code := 200; json_body := Some (PyDict []) |}
  | Some (PyInt 3) =>
      Returned {| status_code := 200; json_body := Some (PyStr "") |}
  | _ => Returned {| status_code := 200; json_body := Some (PyList []) |}
  end.

(** A response counts as a match: status 200 and a truthy body. *)
Definition response_matches (r : response) : bool :=
  (status_code r =? 200)
  && match json_body r with
     | Some v => truthy v
     | None => false
     end.

(** The request cannot be turned into a decision: the connection fails,
    or the status is 200 and the body is not JSON. *)
Definition request_raises (http : request -> http_result) (req : request)
  (e : exn) : Prop :=
  http req = Raised e
  \/ exists r, http req = Returned r /\ status_code r = 200
               /\ json_body r = None /\ e = JSONDecodeError.

(** Project 6 answers the primary request with an HTML page, project 7
    the fallback request. *)
Definition srv_probe_html (req : request) : http_result :=
  match url req with
  | [_; _; Field (PyInt 6); _] =>
      Returned {| status_code := 200; json_body := None |}
  | [_; _; Field (PyInt 7); _] =>
      match dict_get (params req) "all" with
      | Some _ => Returned {| status_code := 200; json_body := None |}
      | None => Returned {| status_code := 206;
                            json_body := Some (PyList [a_commit]) |}
      end
  | _ => srv_demo req
  end.

(** The counters [checked/total] a progress line of the probing stage
    shows. *)
Definition line_counter (l : line) : nat * nat :=
  match l with
  | PageLine _ _ => (0%nat, 0%nat)
  | Matched c t _ | NotMatched c t _ | Failed c t _ _ => (c, t)
  end.

(** How a probe ended, as the progress line tells it. *)
Inductive verdict : Type :=
| Yes
| No
| Broken (e : exn).

(** The path and the verdict of a progress line. *)
Definition line_info (l : line) : option (pyobj * verdict) :=
  match l with
  | PageLine _ _ => None
  | Matched _ _ path => Some (path, Yes)
  | NotMatched _ _ path => Some (path, No)
  | Failed _ _ path e => Some (path, Broken e)
  end.

Definition outcome_verdict (r : result bool) : verdict :=
  match r with
  | Ok true => Yes
  | Ok false => No
  | Raise e => Broken e
  end.

(** The path of a project with the verdict of its future. *)
Definition future_info (pf : pyobj * future bool) : option (pyobj * verdict) :=
  match subscript (fst pf) "path_with_namespace" with
  | Ok path => Some (path, outcome_verdict (snd (snd pf)))
  | Raise _ => None
  end.

Definition project_info (http : request -> http_result)
  (base username : string) (p : pyobj) : option (pyobj * verdict) :=
  future_info (p, project_future http base username p).

(** A record without an id, and one without a path. *)
Definition project_no_id : pyobj :=
  PyDict [("path_with_namespace", PyStr "team/zeta")].

Definition project_no_path : pyobj := PyDict [("id", PyInt 1)].

(** The record sorts under the key [k]. *)
Definition key_is (k : string) (p : pyobj) : bool :=
  match activity_key p with
  | Some k' => String.eqb k' k
  | None => false
  end.

(** Line 79. *)
Definition report_header : row :=
  [PyStr "last_activity"; PyStr "project"; PyStr "url"].

(** Records of one day, and a record without a URL. *)
Definition project6 : pyobj := demo_project 6 "team/eta" "2024-01-05T10:00:00Z".


(** ** The script *)

(** What the script prints besides the progress lines of its stages. *)
Inductive message : Type :=
| Usage (prog : string)
| Fetching
| Total (n : nat)
| Checking
| Progress (l : line)
| CommittedTo (n : nat)
| Saved (outfile : string).

(** How the process ends: [sys.exit], the end of the file, or an
    exception nobody catches. *)
Inductive ending : Type :=
| Exit (code : Z)
| Done
| Traceback (e : exn).

(** What a run leaves behind: the lines on stdout and stderr, the file
    opened on line 77 with the rows written to it, and the ending. *)
Record transcript : Type := {
  stdout : list message;
  stderr : list message;
  written : option (string * list row);
  ended : ending
}.

(** Line 10. *)
Definition api_base (environ : string -> option string) : string :=
  match environ "GITLAB_URL" with
  | Some u => u
  | None => "https://gitlab.com"
  end ++ "/api/v4".

(** Line 76. *)
Definition report_file (username : string) : string :=
  "gitlab_committed_" ++ username ++ ".csv".

(** The script from line 5 to line 83, given the program name, the
    arguments after it, the environment, what [open(path, "w")] does on
    the file system, and the server as a function of the session
    headers.  [None] where the sort of line 73 is not modelled. *)
Definition script (prog : string) (args : list string)
  (environ : string -> option string)
  (open_file : string -> result unit)
  (server : dict -> request -> http_result)
  (pages_completed : list (future (nat * pyobj)) -> list (future (nat * pyobj)))
  (probes_completed : list (pyobj * future bool) -> list (pyobj * future bool))
  : option transcript :=
  match args with
  | [token; username] =>
      let base := api_base environ in
      let http := server [("PRIVATE-TOKEN", PyStr token)] in
      match get_all_pages http pages_completed (membership_url base)
              membership_params tt with
      | (log1, _, Raise e) =>
          Some {| stdout := [];
                  stderr := Fetching :: map Progress log1;
                  written := None;
                  ended := Traceback e |}
      | (log1, _, Ok all_projects) =>
          let err1 := Fetching :: map Progress log1
                      ++ [Total (List.length all_projects); Checking] in
          match probe_all http base username probes_completed all_projects
                  globals0 with
          | (log2, _, Raise e) =>
              Some {| stdout := [];
                      stderr := err1 ++ map Progress log2;
                      written := None;
                      ended := Traceback e |}
          | (log2, g, Ok _) =>
              let err2 := err1 ++ map Progress log2
                          ++ [CommittedTo (List.length (committed g))] in
              match sort_committed (committed g) with
              | None => None
              | Some sorted =>
                  match open_file (report_file username) with
                  | Raise e =>
                      Some {| stdout := [];
                              stderr := err2;
                              written := None;
                              ended := Traceback e |}
                  | Ok _ =>
                      match write_report sorted tt with
                      | (rows, _, Raise e) =>
                          Some {| stdout := [];
                                  stderr := err2;
                                  written := Some (report_file username, rows);
                                  ended := Traceback e |}
                      | (rows, _, Ok _) =>
                          Some {| stdout := [];
                                  stderr := err2
                                            ++ [Saved (report_file username)];
                                  written := Some (report_file username, rows);
                                  ended := Done |}
                      end
                  end
              end
          end
      end
  | _ =>
      Some {| stdout := [Usage prog];
              stderr := [];
              written := None;
              ended := Exit 1 |}
  end.


(** A directory without subdirectories: a path with a slash cannot be
    opened. *)
Definition open_flat (path : string) : result unit :=
  match String.index 0 "/" path with
  | Some _ => Raise (OSError "No such file or directory")
  | None => Ok tt
  end.

(** The small GitLab behind a token. *)
Definition gitlab_demo (headers : dict) (req : request) : http_result :=
  match dict_get headers "PRIVATE-TOKEN" with
  | Some (PyStr "glpat-demo") => srv_demo req
  | _ =>
      Returned {| status_code := 401;
                  json_body := Some (PyDict [("message",
                                              PyStr "401 Unauthorized")]) |}
  end.

(** The same, with a record without a path on page 2, and with a record
    without last activity on page 2. *)
Definition gitlab_no_path (headers : dict) (req : request) : http_result :=
  match page_param req with
  | Some (PyInt 2) =>
      Returned {| status_code := 200;
                  json_body := Some (PyList [project_no_path]) |}
  | _ => srv_demo req
  end.



Definition no_environ (name : string) : option string := None.

(** The last activity under which a record is to be sorted, read off the
    record: the str under "last_activity_at", and "" for a dict without
    that key. *)
Inductive last_activity : pyobj -> string -> Prop :=
| activity_present (fields : dict) (s : string) :
    dict_get fields "last_activity_at" = Some (PyStr s) ->
    last_activity (PyDict fields) s
| activity_missing (fields : dict) :
    dict_get fields "last_activity_at" = None ->
    last_activity (PyDict fields) "".

(** A dict whose last activity is a str or is missing. *)
Definition str_or_missing (p : pyobj) : Prop :=
  exists s, last_activity p s.

(** The last activity of [a] is not below that of [b]. *)
Definition activity_ge (a b : pyobj) : Prop :=
  exists sa sb, last_activity a sa /\ last_activity b sb
                /\ String.ltb sa sb = false.

(** The last activity of the record is [k]. *)
Definition activity_is (k : string) (p : pyobj) : bool :=
  match p with
  | PyDict fields =>
      match dict_get fields "last_activity_at" with
      | Some (PyStr s) => String.eqb s k
      | Some _ => false
      | None => String.eqb "" k
      end
  | _ => false
  end.

(** A response that is no match: a status other than 200, or status 200
    with a falsy body (an empty sequence). *)
Definition no_match (r : response) : Prop :=
  status_code r <> 200
  \/ exists v, json_body r = Some v /\ truthy v = false.

(** ** The monad and the loops *)

Lemma for_each_app {E V A} (l1 l2 : list A) (body : A -> M E V unit) (v : V) :
  for_each (l1 ++ l2) body v = (for_each l1 body ;; for_each l2 body) v.
Proof.
  revert v. induction l1 as [|x l1 IH]; intro v.
  - simpl. unfold bind, ret. simpl. destruct (for_each l2 body v) as [[t v'] r].
    reflexivity.
  - simpl. unfold bind in *. destruct (body x v) as [[t v'] [[]|e]]; auto.
    rewrite IH. destruct (for_each l1 body v') as [[t1 v1] [[]|e1]].
    + destruct (for_each l2 body v1) as [[t2 v2] r2]. now rewrite app_assoc.
    + reflexivity.
Qed.

Lemma dict_get_set (d : dict) (key : string) (v : pyobj) :
  dict_get (dict_set d key v) key = Some v.
Proof.
  induction d as [|[k w] d IH]; simpl.
  - now rewrite String.eqb_refl.
  - destruct (String.eqb k key) eqn:E; simpl; rewrite E; auto.
Qed.

Lemma dict_get_set_other (d : dict) (key key' : string) (v : pyobj) :
  key <> key' -> dict_get (dict_set d key v) key' = dict_get d key'.
Proof.
  intro Hne. induction d as [|[k w] d IH]; simpl.
  - destruct (String.eqb_spec key key'); [contradiction | reflexivity].
  - destruct (String.eqb_spec k key) as [->|Hk]; simpl.
    + destruct (String.eqb_spec key key'); [contradiction | reflexivity].
    + now rewrite IH.
Qed.

(** ** Pagination *)

Lemma fetch_page_run http u ps p :
  run_task (fetch_page http u ps p)
  = ([page_request u ps p], page_outcome http u ps p).
Proof.
  unfold run_task, fetch_page, page_outcome, session_get, raise_for_status,
    r_json, bind, emit, ret, raise.
  fold (page_request u ps p).
  destruct (http (page_request u ps p)) as [e|r]; simpl; [reflexivity|].
  destruct (http_error (status_code r)); simpl; [reflexivity|].
  destruct (json_body r); reflexivity.
Qed.

Lemma page_futures_eq http u ps :
  page_futures http u ps
  = map (fun p => ([page_request u ps p], page_outcome http u ps p))
      (seq 1 MAX_PAGES).
Proof.
  unfold page_futures. apply map_ext. intro p. apply fetch_page_run.
Qed.

Lemma page_body_clean f results :
  future_clean f = true ->
  page_body f results = (future_lines f, results ++ future_items f, Ok tt).
Proof.
  unfold future_clean, page_body, future_lines, future_items, future_result,
    bind, lift, emit, modify, ret.
  destruct f as [t [[pg data]|e]]; simpl; [|discriminate].
  destruct (truthy data); simpl.
  - destruct (py_len data), (py_iter data); simpl; try discriminate.
    reflexivity.
  - intros _. now rewrite app_nil_r.
Qed.

Lemma page_body_dirty f results :
  future_clean f = false ->
  exists t e, page_body f results = (t, results, Raise e).
Proof.
  unfold future_clean, page_body, future_result, bind, lift, emit, modify, ret.
  destruct f as [t [[pg data]|e]]; simpl; [|eauto].
  destruct (truthy data); simpl; [|discriminate].
  destruct (py_len data), (py_iter data); simpl; try discriminate; eauto.
Qed.

(** The loop of lines 28-32 over any list of completed futures. *)
Lemma page_loop_clean fs : forall results,
  forallb future_clean fs = true ->
  for_each fs page_body results
  = (flat_map future_lines fs, results ++ flat_map future_items fs, Ok tt).
Proof.
  induction fs as [|f fs IH]; intros results H; simpl in *.
  - unfold ret. now rewrite app_nil_r.
  - apply andb_true_iff in H as [Hf Hfs].
    unfold bind. rewrite (page_body_clean _ _ Hf), (IH _ Hfs).
    now rewrite app_assoc.
Qed.

Lemma page_loop_dirty fs : forall results,
  forallb future_clean fs = false ->
  exists t results' e, for_each fs page_body results = (t, results', Raise e).
Proof.
  induction fs as [|f fs IH]; intros results H; simpl in *; [discriminate|].
  unfold bind. destruct (future_clean f) eqn:Hf.
  - rewrite (page_body_clean _ _ Hf). simpl in H.
    destruct (IH (results ++ future_items f) H) as (t & r' & e & ->). eauto.
  - destruct (page_body_dirty f results Hf) as (t & e & ->). eauto.
Qed.

Lemma forallb_perm {A} (f : A -> bool) (l1 l2 : list A) :
  Permutation l1 l2 -> forallb f l1 = forallb f l2.
Proof.
  induction 1; simpl; try congruence.
  - now rewrite !andb_assoc, (andb_comm (f y)).
Qed.

Lemma filter_perm {A} (f : A -> bool) (l1 l2 : list A) :
  Permutation l1 l2 -> Permutation (filter f l1) (filter f l2).
Proof.
  induction 1; simpl.
  - constructor.
  - destruct (f x); auto.
  - destruct (f x), (f y); auto using perm_swap.
  - eauto using perm_trans.
Qed.

Section Pagination.

Variable http : request -> http_result.
Variable pages_completed :
  list (future (nat * pyobj)) -> list (future (nat * pyobj)).
Hypothesis pages_completed_perm :
  forall l, Permutation (pages_completed l) l.
Variables (u : fstring) (ps : dict).

(** A run in which every future goes through. *)
Lemma get_all_pages_clean {V} (v : V) :
  forallb future_clean (page_futures http u ps) = true ->
  get_all_pages http pages_completed u ps v
  = (flat_map future_lines (pages_completed (page_futures http u ps)), v,
     Ok (flat_map future_items (pages_completed (page_futures http u ps)))).
Proof.
  intro H. unfold get_all_pages, with_locals, bind, get.
  rewrite page_loop_clean.
  - simpl. now rewrite app_nil_r.
  - now rewrite (forallb_perm _ _ _ (pages_completed_perm _)).
Qed.

(** A run in which some future does not. *)
Lemma get_all_pages_dirty {V} (v : V) :
  forallb future_clean (page_futures http u ps) = false ->
  exists t e, get_all_pages http pages_completed u ps v = (t, v, Raise e).
Proof.
  intro H. unfold get_all_pages, with_locals, bind, get.
  destruct (page_loop_dirty (pages_completed (page_futures http u ps)) [])
    as (t & r & e & ->).
  - now rewrite (forallb_perm _ _ _ (pages_completed_perm _)).
  - eauto.
Qed.

Lemma get_all_pages_ok_inv {V} (v : V) log results :
  get_all_pages http pages_completed u ps v = (log, v, Ok results) ->
  forallb future_clean (page_futures http u ps) = true.
Proof.
  intro H.
  destruct (forallb future_clean (page_futures http u ps)) eqn:E;
    [reflexivity|].
  destruct (get_all_pages_dirty v E) as (t & e & H'). congruence.
Qed.

(** Whatever the completion order, a successful run returns the items
    of the 200 futures, each as often as it was served. *)
Lemma get_all_pages_ok_perm {V} (v : V) log results :
  get_all_pages http pages_completed u ps v = (log, v, Ok results) ->
  Permutation results (flat_map future_items (page_futures http u ps))
  /\ Permutation log (flat_map future_lines (page_futures http u ps)).
Proof.
  intro H. pose proof (get_all_pages_ok_inv _ _ _ H) as Hc.
  rewrite (get_all_pages_clean v Hc) in H. injection H as <- <-.
  split; apply Permutation_flat_map, pages_completed_perm.
Qed.

End Pagination.

(** The futures of pages that are all served as arrays. *)
Lemma served_pages_clean http u ps (items : nat -> list pyobj) pages :
  (forall p, In p pages -> serves http u ps p (items p)) ->
  let fs := map (fun p => ([page_request u ps p], page_outcome http u ps p))
              pages in
  forallb future_clean fs = true
  /\ flat_map future_items fs = flat_map items pages.
Proof.
  induction pages as [|p pages IH]; intro H; simpl; [auto|].
  destruct IH as [IH1 IH2]; [intros; apply H; now right|].
  simpl in IH1, IH2. rewrite IH1, IH2.
  destruct (H p (or_introl eq_refl)) as (r & Hr & Hst & Hbody).
  unfold future_clean, future_items, page_outcome. simpl.
  rewrite Hr, Hst, Hbody. simpl.
  destruct (items p); simpl; auto.
Qed.

Lemma flat_map_nil {A B} (f : A -> list B) (l : list A) :
  (forall x, In x l -> f x = []) -> flat_map f l = [].
Proof.
  induction l as [|x l IH]; intro H; simpl; [reflexivity|].
  rewrite (H x (or_introl eq_refl)), IH; auto.
  intros; apply H; now right.
Qed.

(** C1. When pages 1..N are served as sequences and every page from
    N+1 to the ceiling as an empty sequence, get_all_pages returns, for
    every completion order, a list that is a permutation of the items of
    pages 1..N put together; two completion orders return the same
    items.  (Pages 1..N need not even be non-empty.) *)
Theorem get_all_pages_union :
  forall (http : request -> http_result)
         (order1 order2 : list (future (nat * pyobj)) -> list (future (nat * pyobj)))
         (u : fstring) (ps : dict) (items : nat -> list pyobj) (N : nat)
         (V : Type) (v : V),
    (forall l, Permutation (order1 l) l) ->
    (forall l, Permutation (order2 l) l) ->
    (N <= MAX_PAGES)%nat ->
    (forall p, (1 <= p <= MAX_PAGES)%nat -> serves http u ps p (items p)) ->
    (forall p, (N < p <= MAX_PAGES)%nat -> items p = []) ->
    exists log1 log2 results1 results2,
      get_all_pages http order1 u ps v = (log1, v, Ok results1)
      /\ get_all_pages http order2 u ps v = (log2, v, Ok results2)
      /\ Permutation results1 (flat_map items (seq 1 N))
      /\ Permutation results2 (flat_map items (seq 1 N))
      /\ (forall x, In x results1 <-> In x results2).
Proof.
  intros http order1 order2 u ps items N V v Hp1 Hp2 HN Hserv Hempty.
  destruct (served_pages_clean http u ps items (seq 1 MAX_PAGES)) as [Hc Hi].
  { intros p Hp. apply Hserv. apply in_seq in Hp. lia. }
  rewrite <- page_futures_eq in Hc, Hi.
  assert (Hsplit : flat_map items (seq 1 MAX_PAGES) = flat_map items (seq 1 N)).
  { replace MAX_PAGES with (N + (MAX_PAGES - N))%nat at 1 by lia.
    rewrite seq_app, flat_map_app.
    rewrite (flat_map_nil items (seq (1 + N) (MAX_PAGES - N))).
    - apply app_nil_r.
    - intros p Hp. apply Hempty. apply in_seq in Hp. lia. }
  assert (Hperm : forall order, (forall l, Permutation (order l) l) ->
            Permutation (flat_map future_items (order (page_futures http u ps)))
                        (flat_map items (seq 1 N))).
  { intros order Ho. rewrite <- Hsplit, <- Hi.
    apply Permutation_flat_map, Ho. }
  do 4 eexists.
  split; [apply (get_all_pages_clean http order1 Hp1 u ps v Hc)|].
  split; [apply (get_all_pages_clean http order2 Hp2 u ps v Hc)|].
  split; [apply Hperm, Hp1|]. split; [apply Hperm, Hp2|].
  intro x. split; apply Permutation_in.
  - rewrite (Hperm order1 Hp1). symmetry. apply Hperm, Hp2.
  - rewrite (Hperm order2 Hp2). symmetry. apply Hperm, Hp1.
Qed.

(** A future that raised makes the whole run raise. *)
Lemma failed_page_dirty http u ps p pages :
  In p pages ->
  page_fails http u ps p ->
  forallb future_clean
    (map (fun p => ([page_request u ps p], page_outcome http u ps p)) pages)
  = false.
Proof.
  intros Hin Hfail.
  destruct (forallb _ _) eqn:E; [|reflexivity].
  rewrite forallb_forall in E.
  specialize (E _ (in_map _ _ _ Hin)).
  unfold future_clean, page_outcome in E. simpl in E.
  destruct Hfail as [[e He]|(r & Hr & Hst)].
  - now rewrite He in E.
  - now rewrite Hr, Hst in E.
Qed.

(** C2, amended.  If the fetch of one page in 1..ceiling ends in a
    transport error or in an HTTP status from 400 to 599, get_all_pages
    raises for every completion order of the fetches: it returns no
    list. *)
Theorem get_all_pages_fails :
  forall (http : request -> http_result)
         (order : list (future (nat * pyobj)) -> list (future (nat * pyobj)))
         (u : fstring) (ps : dict) (p : nat) (V : Type) (v : V),
    (forall l, Permutation (order l) l) ->
    (1 <= p <= MAX_PAGES)%nat ->
    page_fails http u ps p ->
    exists log e, get_all_pages http order u ps v = (log, v, Raise e).
Proof.
  intros http order u ps p V v Hperm Hp Hfail.
  apply get_all_pages_dirty; [assumption|].
  rewrite page_futures_eq.
  apply (failed_page_dirty http u ps p); [|assumption].
  apply in_seq. lia.
Qed.

(** C2 as stated fails: page 1 answers with status 300, which is not a
    2xx status, and the run still returns a list. *)
Lemma get_all_pages_non_2xx_returns :
  (exists r, srv_status_300 (page_request demo_url demo_params 1) = Returned r
             /\ ~ (200 <= status_code r < 300))
  /\ get_all_pages srv_status_300 (fun l => l) demo_url demo_params tt
     = ([PageLine 1 1], tt, Ok [PyDict [("id", PyInt 7)]]).
Proof.
  split.
  - eexists. split; [reflexivity|]. simpl. lia.
  - vm_compute. reflexivity.
Qed.

(** The lines of page [p] among those of futures of distinct pages. *)
Lemma page_lines_of_pages http u ps p pages :
  NoDup pages ->
  filter (is_page_line p)
    (flat_map future_lines
       (map (fun q => ([page_request u ps q], page_outcome http u ps q)) pages))
  = if in_dec Nat.eq_dec p pages
    then future_lines ([page_request u ps p], page_outcome http u ps p)
    else [].
Proof.
  assert (Hother : forall q, q <> p ->
            filter (is_page_line p)
              (future_lines ([page_request u ps q], page_outcome http u ps q))
            = []).
  { intros q Hq. unfold future_lines, page_outcome. simpl.
    destruct (http (page_request u ps q)) as [e|r]; [reflexivity|].
    destruct (http_error (status_code r)); [reflexivity|].
    destruct (json_body r) as [data|]; [|reflexivity].
    destruct (truthy data); [|reflexivity].
    destruct (py_len data); [|reflexivity]. simpl.
    destruct (Nat.eqb_spec q p); [contradiction|reflexivity]. }
  assert (Hsame :
            filter (is_page_line p)
              (future_lines ([page_request u ps p], page_outcome http u ps p))
            = future_lines ([page_request u ps p], page_outcome http u ps p)).
  { unfold future_lines, page_outcome. simpl.
    destruct (http (page_request u ps p)) as [e|r]; [reflexivity|].
    destruct (http_error (status_code r)); [reflexivity|].
    destruct (json_body r) as [data|]; [|reflexivity].
    destruct (truthy data); [|reflexivity].
    destruct (py_len data); [|reflexivity]. simpl.
    now rewrite Nat.eqb_refl. }
  induction 1 as [|q pages Hnotin Hnd IH]; simpl; [reflexivity|].
  rewrite filter_app, IH.
  destruct (Nat.eq_dec q p) as [->|Hq].
  - rewrite Hsame. destruct (in_dec Nat.eq_dec p pages); [contradiction|].
    apply app_nil_r.
  - rewrite (Hother q Hq). simpl.
    destruct (in_dec Nat.eq_dec p pages); reflexivity.
Qed.

(** A future that does not go through stops the loop before anything
    is printed for it. *)
Lemma page_body_dirty_silent f results :
  future_clean f = false ->
  exists e, page_body f results = ([], results, Raise e).
Proof.
  unfold future_clean, page_body, future_result, bind, lift, emit, modify, ret.
  destruct f as [t [[pg data]|e]]; simpl; [|eauto].
  destruct (truthy data); simpl; [|discriminate].
  destruct data; simpl; try discriminate; eauto.
Qed.

(** The log of the loop is that of the futures consumed before it
    stopped; a loop that ends normally has consumed them all. *)
Lemma page_loop_prefix fs : forall results log results' r,
  for_each fs page_body results = (log, results', r) ->
  exists fs1 fs2,
    fs = fs1 ++ fs2
    /\ log = flat_map future_lines fs1
    /\ (r = Ok tt -> fs2 = []).
Proof.
  induction fs as [|f fs IH]; intros results log results' r H.
  - simpl in H. injection H as <- _ _. exists [], []. auto.
  - cbn [for_each] in H. unfold bind in H.
    destruct (future_clean f) eqn:Hf.
    + rewrite (page_body_clean _ _ Hf) in H.
      destruct (for_each fs page_body (results ++ future_items f))
        as [[t r1] r2] eqn:Hloop.
      injection H as <- _ <-.
      destruct (IH _ _ _ _ Hloop) as (fs1 & fs2 & -> & -> & Hok).
      exists (f :: fs1), fs2. auto.
    + destruct (page_body_dirty_silent f results Hf) as (e & Hb).
      rewrite Hb in H. injection H as <- _ <-.
      exists [], (f :: fs). repeat split. discriminate.
Qed.

Lemma get_all_pages_log http order u ps {V} (v : V) log r :
  get_all_pages http order u ps v = (log, v, r) ->
  exists results r0,
    for_each (order (page_futures http u ps)) page_body [] = (log, results, r0)
    /\ (is_ok r = true -> r0 = Ok tt).
Proof.
  unfold get_all_pages, with_locals, bind, get.
  destruct (for_each (order (page_futures http u ps)) page_body [])
    as [[t res] [[]|e]]; simpl; intro H; injection H as <- <-;
    rewrite ?app_nil_r; eauto.
  do 2 eexists. split; [reflexivity | discriminate].
Qed.

Lemma short_perm {A} (l l' : list A) :
  Permutation l l' -> (List.length l' <= 1)%nat -> l = l'.
Proof.
  intros Hp Hlen. destruct l' as [|x [|y l']]; simpl in Hlen; [| |lia].
  - apply Permutation_sym, Permutation_nil in Hp. exact Hp.
  - apply Permutation_sym, Permutation_length_1_inv in Hp. exact Hp.
Qed.

Lemma future_lines_short f : (List.length (future_lines f) <= 1)%nat.
Proof.
  unfold future_lines. destruct (snd f) as [[pg data]|e]; simpl; [|lia].
  destruct (truthy data); simpl; [|lia].
  destruct (py_len data); simpl; lia.
Qed.

(** In any run, the lines of page [p] in the log are a prefix of the one
    line the page can have. *)
Lemma page_lines_prefix http order u ps {V} (v : V) log r p :
  (forall l, Permutation (order l) l) ->
  get_all_pages http order u ps v = (log, v, r) ->
  (1 <= p <= MAX_PAGES)%nat ->
  exists rest,
    filter (is_page_line p) log ++ rest
    = future_lines ([page_request u ps p], page_outcome http u ps p)
    /\ (is_ok r = true -> rest = []).
Proof.
  intros Hperm Hrun Hp.
  destruct (get_all_pages_log http order u ps v log r Hrun)
    as (results & r0 & Hloop & Hr0).
  destruct (page_loop_prefix _ _ _ _ _ Hloop) as (fs1 & fs2 & Hsplit & -> & Hok).
  exists (filter (is_page_line p) (flat_map future_lines fs2)). split.
  - rewrite <- filter_app, <- flat_map_app, <- Hsplit.
    apply short_perm; [|apply future_lines_short].
    pose proof (page_lines_of_pages http u ps p (seq 1 MAX_PAGES)
                  (seq_NoDup _ _)) as Hall.
    destruct (in_dec Nat.eq_dec p (seq 1 MAX_PAGES)) as [_|Hout];
      [|exfalso; apply Hout, in_seq; lia].
    rewrite <- Hall, <- page_futures_eq.
    apply filter_perm, Permutation_flat_map, Hperm.
  - intro H. rewrite (Hok (Hr0 H)). reflexivity.
Qed.

(** C6, amended.  In every run, a page in 1..ceiling whose body is falsy
    (an empty sequence) has no progress line, and a page whose body is
    truthy (a non-empty sequence) has at most one, with its page number
    and item count; in a run that returns, every page whose body is
    truthy has exactly that one line. *)
Theorem get_all_pages_progress :
  forall (http : request -> http_result)
         (order : list (future (nat * pyobj)) -> list (future (nat * pyobj)))
         (u : fstring) (ps : dict) (V : Type) (v : V)
         (log : list line) (r : result (list pyobj)) (p : nat),
    (forall l, Permutation (order l) l) ->
    get_all_pages http order u ps v = (log, v, r) ->
    (1 <= p <= MAX_PAGES)%nat ->
    (forall data,
       page_outcome http u ps p = Ok (p, data) -> truthy data = false ->
       filter (is_page_line p) log = [])
    /\ (filter (is_page_line p) log = []
        \/ exists data n,
             page_outcome http u ps p = Ok (p, data)
             /\ truthy data = true
             /\ py_len data = Ok n
             /\ filter (is_page_line p) log = [PageLine p n])
    /\ (forall results,
          r = Ok results ->
          exists data,
            page_outcome http u ps p = Ok (p, data)
            /\ (truthy data = false -> filter (is_page_line p) log = [])
            /\ (truthy data = true ->
                exists n, py_len data = Ok n
                          /\ filter (is_page_line p) log = [PageLine p n])).
Proof.
  intros http order u ps V v log r p Hperm Hrun Hp.
  destruct (page_lines_prefix http order u ps v log r p Hperm Hrun Hp)
    as (rest & Hlines & Hrest).
  assert (Hpage : forall pg data, page_outcome http u ps p = Ok (pg, data) ->
                                  pg = p).
  { unfold page_outcome. intros pg data.
    destruct (http (page_request u ps p)) as [e|r']; [discriminate|].
    destruct (http_error (status_code r')); [discriminate|].
    destruct (json_body r'); [|discriminate].
    intro H. now injection H as <- _. }
  unfold future_lines in Hlines. simpl in Hlines.
  split; [|split].
  - intros data Hout Hfalsy. rewrite Hout, Hfalsy in Hlines.
    now apply app_eq_nil in Hlines.
  - destruct (page_outcome http u ps p) as [[pg data]|e] eqn:Hout;
      [|left; now apply app_eq_nil in Hlines].
    pose proof (Hpage pg data eq_refl) as ->.
    destruct (truthy data) eqn:Ht; [|left; now apply app_eq_nil in Hlines].
    destruct (py_len data) as [n|] eqn:Hn;
      [|left; now apply app_eq_nil in Hlines].
    apply app_eq_unit in Hlines as [[Hl _]|[Hl _]]; [now left|].
    right. exists data, n. auto.
  - intros results ->. specialize (Hrest eq_refl). subst rest.
    rewrite app_nil_r in Hlines.
    pose proof (get_all_pages_ok_inv http order Hperm u ps v log results Hrun)
      as Hc.
    rewrite page_futures_eq, forallb_forall in Hc.
    assert (Hin : In p (seq 1 MAX_PAGES)) by (apply in_seq; lia).
    specialize (Hc _ (in_map _ _ _ Hin)).
    unfold future_clean in Hc. simpl in Hc.
    destruct (page_outcome http u ps p) as [[pg data]|e] eqn:Hout;
      [|discriminate].
    pose proof (Hpage pg data eq_refl) as ->.
    exists data. split; [reflexivity|].
    destruct (truthy data).
    + split; [discriminate|]. intros _.
      destruct (py_len data) as [n|]; [|discriminate].
      exists n. auto.
    + split; [|discriminate]. auto.
Qed.

(** C6 as stated fails twice.  Every page is served as an empty
    sequence, all 200 fetches complete, and page 1 has no progress line.
    And page 3 is a number, the pages complete last to first, the run
    raises, and page 1, a non-empty sequence, has no progress line. *)
Lemma get_all_pages_empty_page_silent :
  (page_outcome srv_all_empty demo_url demo_params 1 = Ok (1%nat, PyList [])
   /\ exists log results,
        get_all_pages srv_all_empty (fun l => l) demo_url demo_params tt
        = (log, tt, Ok results)
        /\ List.length (filter (is_page_line 1) log) <> 1%nat)
  /\ (page_outcome srv_number demo_url demo_params 1
      = Ok (1%nat, PyList [project1; project2])
      /\ exists log e,
           get_all_pages srv_number (@rev _) demo_url demo_params tt
           = (log, tt, Raise e)
           /\ List.length (filter (is_page_line 1) log) <> 1%nat).
Proof.
  split; (split; [reflexivity|]).
  - exists [], []. split; [vm_compute; reflexivity | simpl; lia].
  - exists [], TypeError. split; [vm_compute; reflexivity | simpl; lia].
Qed.

Lemma page_request_param u ps p :
  page_param (page_request u ps p) = Some (PyInt (Z.of_nat p)).
Proof. unfold page_param, page_request. simpl. apply dict_get_set. Qed.

Lemma pagination_requests_eq http u ps :
  pagination_requests http u ps = map (page_request u ps) (seq 1 MAX_PAGES).
Proof.
  unfold pagination_requests. rewrite page_futures_eq.
  generalize (seq 1 MAX_PAGES) as pages.
  induction pages as [|p pages IH]; simpl; [reflexivity|]. now rewrite IH.
Qed.

(** C7. The pagination stage submits one task per page number from 1 to
    the ceiling, each task issues the one request of its page, and no
    request carries a page number above the ceiling.  What the server
    holds beyond the ceiling is never asked for and changes nothing: two
    servers that agree on pages 1..ceiling give the same run, so a longer
    listing is cut without an error. *)
Theorem get_all_pages_ceiling :
  forall (http http' : request -> http_result)
         (order : list (future (nat * pyobj)) -> list (future (nat * pyobj)))
         (u : fstring) (ps : dict) (V : Type) (v : V),
    (forall p, (1 <= p <= MAX_PAGES)%nat ->
               http' (page_request u ps p) = http (page_request u ps p)) ->
    map fst (page_futures http u ps)
    = map (fun p => [page_request u ps p]) (seq 1 MAX_PAGES)
    /\ map page_param (pagination_requests http u ps)
       = map (fun p => Some (PyInt (Z.of_nat p))) (seq 1 MAX_PAGES)
    /\ (forall req, In req (pagination_requests http u ps) ->
          exists p, (1 <= p <= MAX_PAGES)%nat
                    /\ req = page_request u ps p
                    /\ page_param req = Some (PyInt (Z.of_nat p)))
    /\ get_all_pages http' order u ps v = get_all_pages http order u ps v.
Proof.
  intros http http' order u ps V v Hagree.
  split; [|split; [|split]].
  - rewrite page_futures_eq, map_map. reflexivity.
  - rewrite pagination_requests_eq, map_map.
    apply map_ext. intro p. apply page_request_param.
  - intros req Hin. rewrite pagination_requests_eq in Hin.
    apply in_map_iff in Hin as (p & <- & Hp). apply in_seq in Hp.
    exists p. split; [lia|]. split; [reflexivity | apply page_request_param].
  - unfold get_all_pages.
    replace (page_futures http' u ps) with (page_futures http u ps);
      [reflexivity|].
    rewrite !page_futures_eq. apply map_ext_in. intros p Hp.
    apply in_seq in Hp. unfold page_outcome. rewrite Hagree by lia.
    reflexivity.
Qed.

Lemma srv_endless_cut_agree u ps p :
  (1 <= p <= MAX_PAGES)%nat ->
  srv_endless (page_request u ps p) = srv_cut (page_request u ps p).
Proof.
  intro Hp. unfold srv_endless, srv_cut. rewrite page_request_param.
  unfold MAX_PAGES in Hp.
  destruct (Z.leb_spec (Z.of_nat p) 200); [reflexivity | lia].
Qed.

(** The endless listing is read up to page 200 and no further, as if it
    ended there. *)
Lemma get_all_pages_ceiling_witness :
  get_all_pages srv_endless (fun l => l) [Text "projects"] [] tt
  = get_all_pages srv_cut (fun l => l) [Text "projects"] [] tt
  /\ snd (get_all_pages srv_endless (fun l => l) [Text "projects"] [] tt)
     = Ok (map (fun p => PyInt (Z.of_nat p)) (seq 1 200)).
Proof.
  split.
  - apply (get_all_pages_ceiling srv_cut srv_endless (fun l => l)
             [Text "projects"] [] unit tt).
    intros p Hp. apply srv_endless_cut_agree, Hp.
  - vm_compute. reflexivity.
Defined.

(** ** The commit probe *)

(** The probe in one equation: the primary request, and the fallback
    request only if the primary one completed without a match. *)
Lemma has_user_commits_run http base username project_id :
  run_task (has_user_commits http base username project_id)
  = match request_matches http (primary_request base username project_id) with
    | Raise e => ([primary_request base username project_id], Raise e)
    | Ok true => ([primary_request base username project_id], Ok true)
    | Ok false =>
        ([primary_request base username project_id;
          fallback_request base username project_id],
         request_matches http (fallback_request base username project_id))
    end.
Proof.
  unfold run_task, has_user_commits, request_matches, session_get,
    ok_and_json, r_json, bind, emit, ret, raise.
  fold (primary_request base username project_id).
  fold (fallback_request base username project_id).
  destruct (http (primary_request base username project_id)) as [e|r];
    simpl; [reflexivity|].
  destruct (status_code r =? 200); simpl;
    [destruct (json_body r) as [v|]; simpl; [destruct (truthy v); simpl|]|];
    try reflexivity;
    (destruct (http (fallback_request base username project_id)) as [e2|r2];
     simpl; [reflexivity|];
     destruct (status_code r2 =? 200); simpl; [|reflexivity];
     destruct (json_body r2); reflexivity).
Qed.

Lemma primary_fallback_differ base username project_id :
  primary_request base username project_id
  <> fallback_request base username project_id.
Proof. unfold primary_request, fallback_request. intro H. discriminate H. Qed.

(** C4. When the primary request returns status 200 with at least one
    item, has_user_commits returns true and its only request is the
    primary one: the fallback request is not issued. *)
Theorem has_user_commits_primary_match :
  forall (http : request -> http_result) (base username : string)
         (project_id : pyobj) (r : response) (item : pyobj)
         (items : list pyobj),
    http (primary_request base username project_id) = Returned r ->
    status_code r = 200 ->
    json_body r = Some (PyList (item :: items)) ->
    run_task (has_user_commits http base username project_id)
    = ([primary_request base username project_id], Ok true)
    /\ ~ In (fallback_request base username project_id)
          (fst (run_task (has_user_commits http base username project_id))).
Proof.
  intros http base username project_id r item items Hr Hst Hbody.
  assert (Hrun : run_task (has_user_commits http base username project_id)
                 = ([primary_request base username project_id], Ok true)).
  { rewrite has_user_commits_run. unfold request_matches.
    rewrite Hr, Hst, Hbody. reflexivity. }
  split; [exact Hrun|].
  rewrite Hrun. simpl. intros [H|[]].
  now apply primary_fallback_differ in H.
Qed.



(** A primary request that raises ends the probe: nothing else is
    asked. *)
Lemma has_user_commits_primary_raises http base username project_id e :
  request_matches http (primary_request base username project_id) = Raise e ->
  run_task (has_user_commits http base username project_id)
  = ([primary_request base username project_id], Raise e).
Proof. intro H. now rewrite has_user_commits_run, H. Qed.

(** How the primary request can end. *)
Lemma primary_cases (http : request -> http_result) (req : request) :
  (exists e, http req = Raised e /\ request_matches http req = Raise e)
  \/ (exists r, http req = Returned r /\ status_code r = 200
                /\ json_body r = None
                /\ request_matches http req = Raise JSONDecodeError)
  \/ (exists r, http req = Returned r /\ ok_non_empty r
                /\ request_matches http req = Ok true)
  \/ (exists r, http req = Returned r /\ no_match r
                /\ request_matches http req = Ok false).
Proof.
  unfold request_matches, ok_non_empty, no_match.
  destruct (http req) as [e|r]; [left; eauto|]. right.
  destruct (Z.eqb_spec (status_code r) 200) as [E|E].
  - destruct (json_body r) as [v|] eqn:Hv; [|left; eauto].
    right. destruct (truthy v) eqn:Ht.
    + left. exists r. repeat split; eauto.
    + right. exists r. repeat split; eauto.
  - right. right. exists r. auto.
Qed.

Lemma match_or_not (r : response) : ok_non_empty r -> no_match r -> False.
Proof.
  intros [Hst (v & Hv & Ht)] [Hne|(w & Hw & Hf)]; [contradiction|].
  congruence.
Qed.

(** C10, amended.  has_user_commits issues the fallback request exactly
    when the primary request returns a response that is not a 200 with a
    non-empty body: a 200 with an empty body, or any other status.  When
    the primary request raises, or returns 200 with a body that is not
    JSON, has_user_commits raises and the fallback request is not
    issued.  The fallback request has the url, the timeout, the author
    and the per_page of the primary one and adds only all=true. *)
Theorem has_user_commits_fallback :
  forall (http : request -> http_result) (base username : string)
         (project_id : pyobj),
    (In (fallback_request base username project_id)
        (fst (run_task (has_user_commits http base username project_id)))
     <-> exists r, http (primary_request base username project_id) = Returned r
                   /\ no_match r)
    /\ (forall e,
          http (primary_request base username project_id) = Raised e ->
          run_task (has_user_commits http base username project_id)
          = ([primary_request base username project_id], Raise e))
    /\ (forall r,
          http (primary_request base username project_id) = Returned r ->
          status_code r = 200 -> json_body r = None ->
          run_task (has_user_commits http base username project_id)
          = ([primary_request base username project_id],
             Raise JSONDecodeError))
    /\ (forall r,
          http (primary_request base username project_id) = Returned r ->
          ok_non_empty r ->
          fst (run_task (has_user_commits http base username project_id))
          = [primary_request base username project_id])
    /\ (forall r,
          http (primary_request base username project_id) = Returned r ->
          no_match r ->
          fst (run_task (has_user_commits http base username project_id))
          = [primary_request base username project_id;
             fallback_request base username project_id])
    /\ url (fallback_request base username project_id)
       = url (primary_request base username project_id)
    /\ timeout (fallback_request base username project_id)
       = timeout (primary_request base username project_id)
    /\ dict_get (params (primary_request base username project_id)) "all"
       = None
    /\ (forall key,
          dict_get (params (fallback_request base username project_id)) key
          = if String.eqb key "all" then Some (PyStr "true")
            else dict_get (params (primary_request base username project_id))
                   key)
    /\ dict_get (params (fallback_request base username project_id)) "author"
       = Some (PyStr username)
    /\ dict_get (params (fallback_request base username project_id)) "per_page"
       = Some (PyInt 1).
Proof.
  intros http base username project_id.
  pose proof (has_user_commits_run http base username project_id) as Hrun.
  pose proof (primary_fallback_differ base username project_id) as Hdiff.
  assert (Hone : ~ In (fallback_request base username project_id)
                      [primary_request base username project_id]).
  { intros [H|[]]. now apply Hdiff. }
  split; [|split; [|split; [|split; [|split; [|split; [|split; [|split;
    [|split; [|split]]]]]]]]]; try reflexivity.
  - destruct (primary_cases http (primary_request base username project_id))
      as [(e & He & Hm)|[(r & Hr & Hst & Hb & Hm)|[(r & Hr & Hy & Hm)
         |(r & Hr & Hn & Hm)]]]; rewrite Hm in Hrun; rewrite Hrun; simpl.
    + split; [intros [H|[]]; now apply Hdiff in H|].
      intros (r & Hr & _). congruence.
    + split; [intros [H|[]]; now apply Hdiff in H|].
      intros (r' & Hr' & [Hne|(v & Hv & _)]);
        assert (r' = r) by congruence; subst r'; congruence.
    + split; [intros [H|[]]; now apply Hdiff in H|].
      intros (r' & Hr' & Hn). assert (r' = r) by congruence. subst r'.
      exfalso. exact (match_or_not r Hy Hn).
    + split; [intros _; eauto | auto].
  - intros e He. rewrite Hrun. unfold request_matches. now rewrite He.
  - intros r Hr Hst Hb. rewrite Hrun. unfold request_matches.
    rewrite Hr, Hst, Hb. reflexivity.
  - intros r Hr Hy.
    destruct (primary_cases http (primary_request base username project_id))
      as [(e & He & Hm)|[(r' & Hr' & Hst & Hb & Hm)|[(r' & Hr' & _ & Hm)
         |(r' & Hr' & Hn & Hm)]]].
    + congruence.
    + assert (r' = r) by congruence. subst r'.
      destruct Hy as [_ (v & Hv & _)]. congruence.
    + rewrite Hrun, Hm. reflexivity.
    + assert (r' = r) by congruence. subst r'.
      exfalso. exact (match_or_not r Hy Hn).
  - intros r Hr Hn.
    destruct (primary_cases http (primary_request base username project_id))
      as [(e & He & Hm)|[(r' & Hr' & Hst & Hb & Hm)|[(r' & Hr' & Hy & Hm)
         |(r' & Hr' & _ & Hm)]]].
    + congruence.
    + assert (r' = r) by congruence. subst r'.
      destruct Hn as [Hne|(v & Hv & _)]; congruence.
    + assert (r' = r) by congruence. subst r'.
      exfalso. exact (match_or_not r Hy Hn).
    + rewrite Hrun, Hm. reflexivity.
  - intro key.
    change ((if String.eqb "all" key then Some (PyStr "true")
             else if String.eqb "per_page" key then Some (PyInt 1)
             else if String.eqb "author" key then Some (PyStr username)
             else None)
            = if String.eqb key "all" then Some (PyStr "true")
              else if String.eqb "author" key then Some (PyStr username)
              else if String.eqb "per_page" key then Some (PyInt 1)
              else None).
    rewrite (String.eqb_sym key "all").
    destruct (String.eqb "all" key); [reflexivity|].
    destruct (String.eqb_spec "per_page" key) as [<-|_]; [reflexivity|].
    destruct (String.eqb "author" key); reflexivity.
Qed.

(** C10 as stated fails: a primary request that raises, and one that is
    answered 200 with a body that is not JSON, did not return status 200
    with a non-empty body, and the fallback request is not issued. *)
Lemma has_user_commits_no_fallback_on_error :
  (srv_demo (primary_request "https://gitlab.com/api/v4" "alice" (PyInt 4))
   = Raised (RequestException "connection reset")
   /\ ~ In (fallback_request "https://gitlab.com/api/v4" "alice" (PyInt 4))
         (fst (run_task (has_user_commits srv_demo "https://gitlab.com/api/v4"
                           "alice" (PyInt 4)))))
  /\ (srv_probe_html
        (primary_request "https://gitlab.com/api/v4" "alice" (PyInt 6))
      = Returned {| status_code := 200; json_body := None |}
      /\ ~ ok_non_empty {| status_code := 200; json_body := None |}
      /\ ~ In (fallback_request "https://gitlab.com/api/v4" "alice" (PyInt 6))
            (fst (run_task (has_user_commits srv_probe_html
                              "https://gitlab.com/api/v4" "alice" (PyInt 6))))).
Proof.
  split; [split; [reflexivity|]|split; [reflexivity|split]].
  - vm_compute. intros [H|[]]. discriminate H.
  - intros [_ (v & Hv & _)]. discriminate Hv.
  - vm_compute. intros [H|[]]. discriminate H.
Qed.

(** ** The probing stage *)

Lemma probe_futures_run http base username {V} (v : V) all_projects :
  Forall (fun p => is_project p = true) all_projects ->
  probe_futures http base username all_projects v
  = ([], v, Ok (map (fun p => (p, project_future http base username p))
                  all_projects)).
Proof.
  induction 1 as [|p rest Hp _ IH]; simpl; [reflexivity|].
  unfold bind, lift, ret, project_future in *. rewrite IH.
  unfold is_project, has_field in Hp. apply andb_true_iff in Hp as [Hid _].
  destruct (subscript p "id"); [reflexivity | discriminate].
Qed.

(** The futures are those of the projects, in order, whenever line 58
    goes through. *)
Lemma probe_futures_projects http base username {V} (v : V) all_projects :
  forall t v' futures,
    probe_futures http base username all_projects v = (t, v', Ok futures) ->
    map fst futures = all_projects.
Proof.
  induction all_projects as [|p rest IH]; simpl; intros t v' futures H.
  - injection H as _ _ <-. reflexivity.
  - unfold bind, lift, ret in H.
    destruct (subscript p "id"); [|discriminate].
    destruct (probe_futures http base username rest v) as [[t1 v1] [fs|e]] eqn:E;
      [|discriminate].
    injection H as _ _ <-. simpl. f_equal. eapply IH. reflexivity.
Qed.

Lemma probe_futures_state http base username {V} (v : V) all_projects :
  forall t v' r,
    probe_futures http base username all_projects v = (t, v', r) -> v' = v.
Proof.
  induction all_projects as [|p rest IH]; simpl; intros t v' r H.
  - now injection H as _ <- _.
  - unfold bind, lift, ret in H.
    destruct (subscript p "id"); [|now injection H as _ <- _].
    destruct (probe_futures http base username rest v) as [[t1 v1] [fs|e]] eqn:E;
      injection H as _ <- _; eapply IH; reflexivity.
Qed.

(** One turn of the loop of lines 59-69 for a project that has a path. *)
Lemma probe_body_run total p f g :
  has_field p "path_with_namespace" = true ->
  exists l,
    probe_body total (p, f) g
    = ([l],
       {| committed := committed g ++ (if future_true (p, f) then [p] else []);
          checked := S (checked g) |},
       Ok tt)
    /\ is_failed_line l = future_raised (p, f).
Proof.
  unfold has_field, probe_body, future_true, future_raised, try_except,
    future_result, bind, lift, modify, get, emit.
  destruct f as [t [[|]|e]]; simpl;
    destruct (subscript p "path_with_namespace") as [path|]; simpl;
    try discriminate; intros _; eexists;
    rewrite ?app_nil_r; split; reflexivity.
Qed.

(** Whatever happens in a turn, [committed] only grows by the project of
    the turn. *)
Lemma probe_body_committed total p f g t g' r :
  probe_body total (p, f) g = (t, g', r) ->
  committed g' = committed g \/ committed g' = committed g ++ [p].
Proof.
  unfold probe_body, try_except, future_result, bind, lift, modify, get, emit.
  destruct f as [tr [[|]|e]]; simpl;
    destruct (subscript p "path_with_namespace") as [path|]; simpl;
    intro H; injection H as _ <- _; simpl; auto.
Qed.

Lemma probe_loop total completed : forall g,
  Forall (fun pf => has_field (fst pf) "path_with_namespace" = true) completed ->
  exists log,
    for_each completed (probe_body total) g
    = (log,
       {| committed := committed g ++ map fst (filter future_true completed);
          checked := checked g + List.length completed |},
       Ok tt)
    /\ List.length (filter is_failed_line log)
       = List.length (filter future_raised completed).
Proof.
  induction completed as [|[p f] completed IH]; intros g H; cbn [for_each].
  - exists []. unfold ret. simpl. rewrite app_nil_r, Nat.add_0_r.
    destruct g; auto.
  - inversion H as [|? ? Hp Hrest]; subst. simpl in Hp.
    destruct (probe_body_run total p f g Hp) as (l & Hbody & Hl).
    unfold bind. rewrite Hbody.
    destruct (IH {| committed := committed g ++ (if future_true (p, f) then [p] else []);
                    checked := S (checked g) |} Hrest) as (log & Hloop & Hlog).
    rewrite Hloop. simpl. exists (l :: log). split.
    + f_equal. f_equal.
      destruct (future_true (p, f)); simpl;
        rewrite <- ?app_assoc, ?app_nil_r, <- plus_n_Sm; reflexivity.
    + simpl. rewrite Hl. destruct (future_raised (p, f)); simpl; auto.
Qed.

Lemma probe_loop_committed total completed : forall g t g' r,
  for_each completed (probe_body total) g = (t, g', r) ->
  incl (committed g') (committed g ++ map fst completed).
Proof.
  induction completed as [|[p f] completed IH]; intros g t g' r H;
    cbn [for_each map fst] in *.
  - injection H as _ <- _. rewrite app_nil_r. apply incl_refl.
  - unfold bind in H.
    destruct (probe_body total (p, f) g) as [[t1 g1] [[]|e]] eqn:Hb.
    + destruct (for_each completed (probe_body total) g1) as [[t2 g2] r2] eqn:Hl.
      injection H as _ <- _.
      apply IH in Hl. apply probe_body_committed in Hb.
      intros x Hx. apply Hl in Hx. apply in_app_or in Hx.
      apply in_or_app. simpl.
      destruct Hx as [Hx|Hx]; [|auto].
      destruct Hb as [Hb|Hb]; rewrite Hb in Hx; [auto|].
      apply in_app_or in Hx as [Hx|[Hx|[]]]; auto.
    + injection H as _ <- _. apply probe_body_committed in Hb.
      intros x Hx. apply in_or_app. simpl.
      destruct Hb as [Hb|Hb]; rewrite Hb in Hx; [auto|].
      apply in_app_or in Hx as [Hx|[Hx|[]]]; auto.
Qed.

(** The matched set holds fetched records only, however the stage
    ends. *)
Lemma probe_all_committed http base username order all_projects log g r :
  (forall l, Permutation (order l) l) ->
  probe_all http base username order all_projects globals0 = (log, g, r) ->
  incl (committed g) all_projects.
Proof.
  intros Hperm H. unfold probe_all, bind in H.
  destruct (probe_futures http base username all_projects globals0)
    as [[t1 g1] [futures|e]] eqn:Hf.
  - pose proof (probe_futures_state _ _ _ _ _ _ _ _ Hf) as ->.
    apply probe_futures_projects in Hf.
    destruct (for_each _ _ globals0) as [[t2 g2] r2] eqn:Hl.
    injection H as _ <- _. apply probe_loop_committed in Hl. simpl in Hl.
    intros x Hx. apply Hl in Hx. rewrite <- Hf.
    eapply Permutation_in; [apply Permutation_map, Hperm | exact Hx].
  - pose proof (probe_futures_state _ _ _ _ _ _ _ _ Hf) as ->.
    injection H as _ <- _. intros x [].
Qed.

Lemma filter_futures http base username all_projects :
  map fst (filter future_true
             (map (fun p => (p, project_future http base username p))
                all_projects))
  = filter (probe_true http base username) all_projects
  /\ List.length (filter future_raised
                    (map (fun p => (p, project_future http base username p))
                       all_projects))
     = List.length (filter (probe_raised http base username) all_projects).
Proof.
  induction all_projects as [|p rest [IH1 IH2]]; simpl; [auto|].
  unfold future_true, future_raised, probe_true, probe_raised, probe_outcome
    in *. simpl.
  destruct (snd (project_future http base username p)) as [[|]|e]; simpl;
    rewrite ?IH1, ?IH2; auto.
Qed.

(** C3. For a project set of size M whose probes raise for K projects
    and return true for J projects, the probing stage completes without
    raising for every completion order; the matched set is a permutation
    of the J projects whose probe returned true, has size J, and holds no
    project whose probe raised; K lines report a failure. *)
Theorem probe_all_matches :
  forall (http : request -> http_result) (base username : string)
         (order : list (pyobj * future bool) -> list (pyobj * future bool))
         (all_projects : list pyobj) (J K : nat),
    (forall l, Permutation (order l) l) ->
    Forall (fun p => is_project p = true) all_projects ->
    List.length (filter (probe_true http base username) all_projects) = J ->
    List.length (filter (probe_raised http base username) all_projects) = K ->
    exists log g,
      probe_all http base username order all_projects globals0 = (log, g, Ok tt)
      /\ Permutation (committed g)
           (filter (probe_true http base username) all_projects)
      /\ List.length (committed g) = J
      /\ (forall p, probe_raised http base username p = true ->
                    ~ In p (committed g))
      /\ List.length (filter is_failed_line log) = K
      /\ checked g = List.length all_projects
      /\ (J + K <= List.length all_projects)%nat.
Proof.
  intros http base username order all_projects J K Hperm Hwf HJ HK.
  set (futures := map (fun p => (p, project_future http base username p))
                    all_projects).
  assert (Hpaths : Forall (fun pf => has_field (fst pf) "path_with_namespace" = true)
                     (order futures)).
  { apply (Permutation_Forall (Permutation_sym (Hperm futures))).
    unfold futures. apply Forall_map. simpl.
    eapply Forall_impl; [|exact Hwf]. intros p Hp.
    unfold is_project in Hp. now apply andb_true_iff in Hp as [_ Hp]. }
  destruct (probe_loop (List.length all_projects) (order futures) globals0 Hpaths)
    as (log & Hloop & Hlog).
  destruct (filter_futures http base username all_projects) as [Ht Hr].
  fold futures in Ht, Hr.
  assert (Hm : Permutation (map fst (filter future_true (order futures)))
                 (filter (probe_true http base username) all_projects)).
  { rewrite <- Ht. apply Permutation_map, filter_perm, Hperm. }
  exists log. eexists.
  split; [|split; [|split; [|split; [|split; [|split]]]]].
  - unfold probe_all, bind. rewrite (probe_futures_run _ _ _ _ _ Hwf).
    fold futures. rewrite Hloop. reflexivity.
  - exact Hm.
  - simpl. rewrite (Permutation_length Hm). exact HJ.
  - simpl. intros p Hp Hin.
    apply (Permutation_in _ Hm), filter_In in Hin as [_ Hin].
    unfold probe_true, probe_raised in *.
    destruct (probe_outcome http base username p) as [[|]|]; discriminate.
  - rewrite Hlog, <- HK, <- Hr.
    apply Permutation_length, filter_perm, Hperm.
  - simpl. rewrite (Permutation_length (Hperm futures)).
    unfold futures. now rewrite length_map.
  - subst J K. clear. induction all_projects as [|p l IH]; simpl; [lia|].
    unfold probe_true, probe_raised in *.
    destruct (probe_outcome http base username p) as [[|]|]; simpl; lia.
Qed.

(** ** Sorting *)

Lemma ltb_lt (x y : string) : String.ltb x y = true <-> String_as_OT.lt x y.
Proof.
  unfold String.ltb. rewrite <- String_as_OT.cmp_lt. unfold String_as_OT.cmp.
  destruct (String.compare x y); split; congruence.
Qed.

Lemma ltb_empty_r (s : string) : String.ltb s "" = false.
Proof. destruct s; reflexivity. Qed.


Lemma ltb_asym (x y : string) :
  String.ltb x y = true -> String.ltb y x = false.
Proof.
  unfold String.ltb. rewrite (String.compare_antisym x y).
  destruct (String.compare y x); simpl; congruence.
Qed.

Lemma not_ltb_trans (x y z : string) :
  String.ltb x y = false -> String.ltb y z = false -> String.ltb x z = false.
Proof.
  intros Hxy Hyz. destruct (String.ltb x z) eqn:Hxz; [|reflexivity].
  exfalso. apply ltb_lt in Hxz.
  destruct (String.compare x y) eqn:C.
  - apply String.compare_eq_iff in C. subst y.
    apply ltb_lt in Hxz. congruence.
  - unfold String.ltb in Hxy. now rewrite C in Hxy.
  - assert (Hyx : String_as_OT.lt y x).
    { apply String_as_OT.cmp_lt. unfold String_as_OT.cmp.
      rewrite String.compare_antisym, C. reflexivity. }
    pose proof (String_as_OT.lt_trans _ _ _ Hyx Hxz) as Hlt.
    apply ltb_lt in Hlt. congruence.
Qed.

Lemma insert_desc_perm {A} (x : string * A) (l : list (string * A)) :
  Permutation (insert_desc x l) (x :: l).
Proof.
  induction l as [|y l IH]; simpl; [reflexivity|].
  destruct (String.ltb (fst x) (fst y)); [|reflexivity].
  rewrite IH. apply perm_swap.
Qed.

Lemma sort_desc_perm {A} (l : list (string * A)) :
  Permutation (sort_desc l) l.
Proof.
  induction l as [|x l IH]; simpl; [reflexivity|].
  rewrite insert_desc_perm. now constructor.
Qed.

Lemma insert_desc_sorted {A} (x : string * A) (l : list (string * A)) :
  StronglySorted fst_ge l -> StronglySorted fst_ge (insert_desc x l).
Proof.
  induction 1 as [|y l Hl IH Hy]; simpl.
  - constructor; constructor.
  - destruct (String.ltb (fst x) (fst y)) eqn:E.
    + constructor; [assumption|].
      apply (Permutation_Forall (Permutation_sym (insert_desc_perm x l))).
      constructor; [|assumption].
      unfold fst_ge. now apply ltb_asym.
    + constructor; [now constructor|].
      constructor; [exact E|].
      eapply Forall_impl; [|exact Hy]. intros z Hz.
      unfold fst_ge in *. eapply not_ltb_trans; eassumption.
Qed.

Lemma sort_desc_sorted {A} (l : list (string * A)) :
  StronglySorted fst_ge (sort_desc l).
Proof.
  induction l as [|x l IH]; simpl; [constructor|].
  now apply insert_desc_sorted.
Qed.

Lemma decorate_some (c : list pyobj) :
  Forall (fun q => activity_key q <> None) c ->
  exists d, decorate c = Some d
            /\ map snd d = c
            /\ Forall (fun kp => activity_key (snd kp) = Some (fst kp)) d.
Proof.
  induction 1 as [|p c Hp _ (d & Hd & Hmap & Hkeys)]; simpl.
  - exists []. auto.
  - destruct (activity_key p) as [k|] eqn:Hk; [|contradiction].
    rewrite Hd. exists ((k, p) :: d). simpl. rewrite Hmap. auto.
Qed.

Lemma sorted_keys (d : list (string * pyobj)) :
  Forall (fun kp => activity_key (snd kp) = Some (fst kp)) d ->
  StronglySorted fst_ge d ->
  StronglySorted key_ge (map snd d).
Proof.
  intros Hkeys Hs. induction Hs as [|kp d Hs IH Hge]; simpl; [constructor|].
  inversion Hkeys as [|? ? Hkp Hrest]; subst.
  constructor; [auto|].
  apply Forall_map. rewrite Forall_forall in *.
  intros kq Hq. exists (fst kp), (fst kq).
  split; [exact Hkp|]. split; [now apply Hrest | now apply Hge].
Qed.


(** Line 73 on records whose keys are strs: the result is a permutation
    in descending key order. *)
Lemma sort_committed_sorted (c : list pyobj) :
  Forall (fun q => activity_key q <> None) c ->
  exists sorted, sort_committed c = Some sorted
                 /\ Permutation sorted c
                 /\ StronglySorted key_ge sorted.
Proof.
  intro H. destruct (decorate_some c H) as (d & Hd & Hmap & Hkeys).
  exists (map snd (sort_desc d)). unfold sort_committed. rewrite Hd.
  split; [reflexivity|]. split.
  - rewrite <- Hmap. apply Permutation_map, sort_desc_perm.
  - apply sorted_keys; [|apply sort_desc_sorted].
    apply (Permutation_Forall (Permutation_sym (sort_desc_perm d))), Hkeys.
Qed.

(** ** The report *)





(** The key the sort computes is the last activity read off the
    record. *)
Lemma last_activity_key (p : pyobj) (s : string) :
  last_activity p s <-> activity_key p = Some s.
Proof.
  split.
  - intros [fields s' H|fields H]; simpl; now rewrite H.
  - destruct p as [| | | |items|fields]; simpl; try discriminate.
    destruct (dict_get fields "last_activity_at") as [[| | |s'| |]|] eqn:E;
      try discriminate; intro H; injection H as <-.
    + now apply activity_present.
    + now apply activity_missing.
Qed.

Lemma str_or_missing_key (p : pyobj) :
  str_or_missing p -> activity_key p <> None.
Proof.
  intros [s H]. apply last_activity_key in H. congruence.
Qed.

Lemma key_ge_activity (a b : pyobj) : key_ge a b -> activity_ge a b.
Proof.
  intros (ka & kb & Ha & Hb & Hlt). exists ka, kb.
  split; [now apply last_activity_key|].
  split; [now apply last_activity_key | exact Hlt].
Qed.

Lemma sorted_by_activity (l : list pyobj) :
  StronglySorted key_ge l -> StronglySorted activity_ge l.
Proof.
  induction 1 as [|a l _ IH Ha]; constructor; [exact IH|].
  eapply Forall_impl; [|exact Ha]. intros b. apply key_ge_activity.
Qed.

Lemma activity_is_key (k : string) (p : pyobj) :
  activity_is k p = key_is k p.
Proof.
  unfold activity_is, key_is, activity_key.
  destruct p as [| | | |items|fields]; try reflexivity.
  destruct (dict_get fields "last_activity_at") as [[| | |s'| |]|];
    reflexivity.
Qed.


(** ** Records from fetch to report *)

Lemma decorate_records (c : list pyobj) :
  forall d, decorate c = Some d -> map snd d = c.
Proof.
  induction c as [|p c IH]; simpl; intros d H.
  - now injection H as <-.
  - destruct (activity_key p) as [k|]; [|discriminate].
    destruct (decorate c) as [d'|]; [|discriminate].
    injection H as <-. simpl. now rewrite (IH d').
Qed.

Lemma sort_committed_perm (c sorted : list pyobj) :
  sort_committed c = Some sorted -> Permutation sorted c.
Proof.
  unfold sort_committed. destruct (decorate c) as [d|] eqn:Hd; [|discriminate].
  intro H. injection H as <-. rewrite <- (decorate_records c d Hd).
  apply Permutation_map, sort_desc_perm.
Qed.

(** C8, amended.  The aggregated result of a fetch run holds the items
    of the fetched pages once per time they were served: ids are unique
    in it exactly when they are unique across the pages as served.  No
    record is changed afterwards: the matched set and the sorted list
    hold fetched records only. *)
Theorem fetched_records_kept :
  forall (http : request -> http_result) (base username : string)
         (order1 : list (future (nat * pyobj)) -> list (future (nat * pyobj)))
         (order2 : list (pyobj * future bool) -> list (pyobj * future bool))
         (u : fstring) (ps : dict) (V : Type) (v : V)
         (log1 log2 : list line) (results sorted : list pyobj)
         (g : globals) (r : result unit),
    (forall l, Permutation (order1 l) l) ->
    (forall l, Permutation (order2 l) l) ->
    get_all_pages http order1 u ps v = (log1, v, Ok results) ->
    probe_all http base username order2 results globals0 = (log2, g, r) ->
    sort_committed (committed g) = Some sorted ->
    Permutation results (flat_map future_items (page_futures http u ps))
    /\ (NoDup (project_ids results)
        <-> NoDup (project_ids (flat_map future_items (page_futures http u ps))))
    /\ incl (committed g) results
    /\ Permutation sorted (committed g)
    /\ incl sorted results.
Proof.
  intros http base username order1 order2 u ps V v log1 log2 results sorted g r
    Hp1 Hp2 Hfetch Hprobe Hsort.
  destruct (get_all_pages_ok_perm http order1 Hp1 u ps v log1 results Hfetch)
    as [Hres _].
  pose proof (probe_all_committed _ _ _ _ _ _ _ _ Hp2 Hprobe) as Hincl.
  pose proof (sort_committed_perm _ _ Hsort) as Hperm.
  split; [exact Hres|]. split; [|split; [exact Hincl|split; [exact Hperm|]]].
  - unfold project_ids. split; apply Permutation_NoDup, Permutation_map.
    + exact Hres.
    + symmetry. exact Hres.
  - intros x Hx. apply Hincl. eapply Permutation_in; eassumption.
Qed.

(** C8 as stated fails: a listing that shifts between two fetches serves
    project 1 twice, and the aggregated result holds its id twice. *)
Lemma get_all_pages_duplicate_id :
  exists log results,
    get_all_pages srv_shifting (fun l => l) demo_url demo_params tt
    = (log, tt, Ok results)
    /\ ~ NoDup (project_ids results).
Proof.
  exists [PageLine 1 2; PageLine 2 2], [project2; project1; project1; project3].
  split; [vm_compute; reflexivity|].
  intro H. inversion H as [|? ? _ H1]; subst.
  inversion H1 as [|? ? Hnotin _]; subst.
  apply Hnotin. left. reflexivity.
Qed.

(** ** The theorems on the small GitLab *)

Lemma rev_perm {A} (l : list A) : Permutation (rev l) l.
Proof. symmetry. apply Permutation_rev. Qed.

Lemma srv_demo_serves (p : nat) :
  (1 <= p <= MAX_PAGES)%nat ->
  serves srv_demo demo_url demo_params p (demo_pages p).
Proof.
  intro Hp. unfold serves, srv_demo. rewrite page_request_param.
  eexists. split; [reflexivity|]. split; [reflexivity|].
  cbn [json_body]. do 2 f_equal.
  destruct p as [|[|[|p]]]; [lia | reflexivity | reflexivity |].
  destruct (Z.eqb_spec (Z.of_nat (S (S (S p)))) 1); [lia|].
  destruct (Z.eqb_spec (Z.of_nat (S (S (S p)))) 2); [lia|].
  reflexivity.
Qed.

Lemma get_all_pages_union_witness :
  exists log1 log2 results1 results2,
    get_all_pages srv_demo (fun l => l) demo_url demo_params tt
    = (log1, tt, Ok results1)
    /\ get_all_pages srv_demo (@rev _) demo_url demo_params tt
       = (log2, tt, Ok results2)
    /\ Permutation results1 (flat_map demo_pages (seq 1 2))
    /\ Permutation results2 (flat_map demo_pages (seq 1 2))
    /\ (forall x, In x results1 <-> In x results2).
Proof.
  apply (get_all_pages_union srv_demo (fun l => l) (@rev _) demo_url
           demo_params demo_pages 2 unit tt).
  - intro l. apply Permutation_refl.
  - intro l. apply rev_perm.
  - unfold MAX_PAGES. lia.
  - apply srv_demo_serves.
  - intros p Hp. destruct p as [|[|[|p]]]; [lia | lia | lia | reflexivity].
Defined.

Lemma get_all_pages_fails_witness :
  exists log e,
    get_all_pages srv_broken (@rev _) demo_url demo_params tt
    = (log, tt, Raise e).
Proof.
  apply (get_all_pages_fails srv_broken (@rev _) demo_url demo_params 3 unit tt).
  - intro l. apply rev_perm.
  - unfold MAX_PAGES. lia.
  - right. eexists. split; reflexivity.
Defined.

Lemma get_all_pages_progress_witness :
  (forall data,
     page_outcome srv_demo demo_url demo_params 2 = Ok (2%nat, data) ->
     truthy data = false ->
     filter (is_page_line 2) [PageLine 2 2; PageLine 1 2] = [])
  /\ (filter (is_page_line 2) [PageLine 2 2; PageLine 1 2] = []
      \/ exists data n,
           page_outcome srv_demo demo_url demo_params 2 = Ok (2%nat, data)
           /\ truthy data = true
           /\ py_len data = Ok n
           /\ filter (is_page_line 2) [PageLine 2 2; PageLine 1 2]
              = [PageLine 2 n])
  /\ (forall results,
        Ok [project3; project4; project1; project2] = Ok results ->
        exists data,
          page_outcome srv_demo demo_url demo_params 2 = Ok (2%nat, data)
          /\ (truthy data = false ->
              filter (is_page_line 2) [PageLine 2 2; PageLine 1 2] = [])
          /\ (truthy data = true ->
              exists n, py_len data = Ok n
                        /\ filter (is_page_line 2) [PageLine 2 2; PageLine 1 2]
                           = [PageLine 2 n])).
Proof.
  apply (get_all_pages_progress srv_demo (@rev _) demo_url demo_params unit tt
           [PageLine 2 2; PageLine 1 2]
           (Ok [project3; project4; project1; project2]) 2).
  - intro l. apply rev_perm.
  - vm_compute. reflexivity.
  - unfold MAX_PAGES. lia.
Defined.

Lemma probe_all_matches_witness :
  exists log g,
    probe_all srv_demo "https://gitlab.com/api/v4" "alice" (@rev _)
      [project1; project2; project3; project4] globals0
    = (log, g, Ok tt)
    /\ Permutation (committed g)
         (filter (probe_true srv_demo "https://gitlab.com/api/v4" "alice")
            [project1; project2; project3; project4])
    /\ List.length (committed g) = 2%nat
    /\ (forall p, probe_raised srv_demo "https://gitlab.com/api/v4" "alice" p
                  = true -> ~ In p (committed g))
    /\ List.length (filter is_failed_line log) = 1%nat
    /\ checked g = 4%nat
    /\ (2 + 1 <= 4)%nat.
Proof.
  apply (probe_all_matches srv_demo "https://gitlab.com/api/v4" "alice"
           (@rev _) [project1; project2; project3; project4] 2 1).
  - intro l. apply rev_perm.
  - repeat constructor.
  - reflexivity.
  - reflexivity.
Defined.

Lemma has_user_commits_primary_match_witness :
  run_task (has_user_commits srv_demo "https://gitlab.com/api/v4" "alice"
              (PyInt 1))
  = ([primary_request "https://gitlab.com/api/v4" "alice" (PyInt 1)], Ok true)
  /\ ~ In (fallback_request "https://gitlab.com/api/v4" "alice" (PyInt 1))
        (fst (run_task (has_user_commits srv_demo "https://gitlab.com/api/v4"
                          "alice" (PyInt 1)))).
Proof.
  apply (has_user_commits_primary_match srv_demo "https://gitlab.com/api/v4"
           "alice" (PyInt 1)
           {| status_code := 200; json_body := Some (PyList [a_commit]) |}
           a_commit []); reflexivity.
Defined.


Lemma has_user_commits_fallback_witness :
  fst (run_task (has_user_commits srv_demo "https://gitlab.com/api/v4" "alice"
                   (PyInt 3)))
  = [primary_request "https://gitlab.com/api/v4" "alice" (PyInt 3);
     fallback_request "https://gitlab.com/api/v4" "alice" (PyInt 3)].
Proof.
  apply (has_user_commits_fallback srv_demo "https://gitlab.com/api/v4"
           "alice" (PyInt 3))
    with (r := {| status_code := 404; json_body := None |}).
  - reflexivity.
  - left. simpl. intro H. discriminate H.
Defined.

Lemma fetched_records_kept_witness :
  exists results g sorted,
    snd (get_all_pages srv_demo (@rev _) demo_url demo_params tt) = Ok results
    /\ snd (fst (probe_all srv_demo "https://gitlab.com/api/v4" "alice"
                   (@rev _) results globals0)) = g
    /\ sort_committed (committed g) = Some sorted
    /\ sorted = [project3; project1]
    /\ Permutation results
         (flat_map future_items (page_futures srv_demo demo_url demo_params))
    /\ (NoDup (project_ids results)
        <-> NoDup (project_ids
                     (flat_map future_items
                        (page_futures srv_demo demo_url demo_params))))
    /\ incl (committed g) results
    /\ Permutation sorted (committed g)
    /\ incl sorted results.
Proof.
  exists [project3; project4; project1; project2].
  exists {| committed := [project1; project3]; checked := 4 |}.
  exists [project3; project1].
  split; [vm_compute; reflexivity|]. split; [vm_compute; reflexivity|].
  split; [vm_compute; reflexivity|]. split; [reflexivity|].
  apply (fetched_records_kept srv_demo "https://gitlab.com/api/v4" "alice"
           (@rev _) (@rev _) demo_url demo_params unit tt
           [PageLine 2 2; PageLine 1 2]
           (fst (fst (probe_all srv_demo "https://gitlab.com/api/v4" "alice"
                        (@rev _) [project3; project4; project1; project2]
                        globals0)))
           [project3; project4; project1; project2] [project3; project1]
           {| committed := [project1; project3]; checked := 4 |} (Ok tt)).
  - intro l. apply rev_perm.
  - intro l. apply rev_perm.
  - vm_compute. reflexivity.
  - vm_compute. reflexivity.
  - vm_compute. reflexivity.
Defined.


(** The run of the report on that input: the header and two rows are
    written, then the third record raises. *)
Example report_stops_at_project5 :
  sort_committed [project1; project5; project3]
  = Some [project3; project1; project5]
  /\ write_report [project3; project1; project5] tt
     = ([[PyStr "last_activity"; PyStr "project"; PyStr "url"];
         [PyStr "2024-02-11T17:45:00Z"; PyStr "team/gamma";
          PyStr "https://gitlab.com/team/gamma"];
         [PyStr "2024-01-05T10:00:00Z"; PyStr "team/alpha";
          PyStr "https://gitlab.com/team/alpha"]],
        tt, Raise (KeyError "last_activity_at")).
Proof. split; vm_compute; reflexivity. Qed.

(** Records of equal keys keep their order, as under Python's stable
    sort with [reverse=True]. *)
Example sort_committed_ties :
  sort_committed
    [PyDict [("id", PyInt 1); ("last_activity_at", PyStr "2024-01-01")];
     PyDict [("id", PyInt 2); ("last_activity_at", PyStr "2024-06-01")];
     PyDict [("id", PyInt 3); ("last_activity_at", PyStr "2024-01-01")];
     PyDict [("id", PyInt 4)];
     PyDict [("id", PyInt 5); ("last_activity_at", PyStr "")]]
  = Some
      [PyDict [("id", PyInt 2); ("last_activity_at", PyStr "2024-06-01")];
       PyDict [("id", PyInt 1); ("last_activity_at", PyStr "2024-01-01")];
       PyDict [("id", PyInt 3); ("last_activity_at", PyStr "2024-01-01")];
       PyDict [("id", PyInt 4)];
       PyDict [("id", PyInt 5); ("last_activity_at", PyStr "")]].
Proof. vm_compute. reflexivity. Qed.


(** * Further properties *)

(** ** Pagination *)

(** X1. fetch_page sends one request: to the url it was given, with a
    timeout of 30, with the page number under "page" (replacing a "page"
    the caller may have put in params) and every other parameter as the
    caller gave it. *)
Theorem fetch_page_request :
  forall (http : request -> http_result) (u : fstring) (ps : dict)
         (page : nat),
  exists req,
    fst (run_task (fetch_page http u ps page)) = [req]
    /\ url req = u
    /\ timeout req = 30
    /\ forall key,
         dict_get (params req) key
         = if String.eqb key "page" then Some (PyInt (Z.of_nat page))
           else dict_get ps key.
Proof.
  intros http u ps page. exists (page_request u ps page).
  rewrite fetch_page_run. repeat split.
  intro key. unfold page_request. cbn [params].
  destruct (String.eqb_spec key "page") as [->|Hne].
  - apply dict_get_set.
  - apply dict_get_set_other. congruence.
Qed.

Lemma page_body_raised t e results :
  page_body (t, Raise e) results = ([], results, Raise e).
Proof. reflexivity. Qed.

Lemma page_body_scalar t pg data results :
  truthy data = true -> is_scalar data = true ->
  page_body (t, Ok (pg, data)) results = ([], results, Raise TypeError).
Proof.
  unfold page_body, future_result, bind, lift. simpl.
  destruct data; try discriminate; intros -> _; reflexivity.
Qed.

(** The loop when every future that does not go through stops it with
    the same exception. *)
Lemma page_loop_raises e fs : forall results,
  Forall (fun f => future_clean f = true
                   \/ forall results, page_body f results = ([], results, Raise e))
    fs ->
  forallb future_clean fs = false ->
  exists log results', for_each fs page_body results = (log, results', Raise e).
Proof.
  induction fs as [|f fs IH]; intros results Hall Hdirty; [discriminate|].
  inversion Hall as [|? ? Hf Hfs]; subst. cbn [for_each]. unfold bind.
  destruct (future_clean f) eqn:Hc.
  - rewrite (page_body_clean _ _ Hc). simpl in Hdirty. rewrite Hc in Hdirty.
    destruct (IH (results ++ future_items f) Hfs Hdirty) as (log & r' & ->).
    eauto.
  - destruct Hf as [Hf|Hf]; [discriminate|]. rewrite Hf. eauto.
Qed.

Lemma served_future_clean http u ps p l :
  serves http u ps p l ->
  future_clean (page_future http u ps p) = true
  /\ future_items (page_future http u ps p) = l.
Proof.
  intros (r & Hr & Hst & Hbody).
  unfold future_clean, future_items, page_future, page_outcome. simpl.
  rewrite Hr, Hst, Hbody. simpl. destruct l; auto.
Qed.

Lemma page_futures_map http u ps :
  page_futures http u ps = map (page_future http u ps) (seq 1 MAX_PAGES).
Proof. apply page_futures_eq. Qed.

(** One page stops the loop with [e], the others are served. *)
Lemma one_bad_page_raises http order u ps p e {V} (v : V) :
  (forall l, Permutation (order l) l) ->
  (1 <= p <= MAX_PAGES)%nat ->
  future_clean (page_future http u ps p) = false ->
  (forall results,
     page_body (page_future http u ps p) results = ([], results, Raise e)) ->
  (forall q, (1 <= q <= MAX_PAGES)%nat -> q <> p ->
             exists l, serves http u ps q l) ->
  exists log, get_all_pages http order u ps v = (log, v, Raise e).
Proof.
  intros Hperm Hp Hdirty Hbad Hothers.
  unfold get_all_pages, with_locals, bind.
  destruct (page_loop_raises e (order (page_futures http u ps)) [])
    as (log & r' & ->).
  - apply (Permutation_Forall (Permutation_sym (Hperm _))).
    rewrite page_futures_map. apply Forall_map, Forall_forall.
    intros q Hq. apply in_seq in Hq.
    destruct (Nat.eq_dec q p) as [->|Hne]; [right; exact Hbad|].
    left. destruct (Hothers q) as [l Hl]; [lia | assumption|].
    now apply served_future_clean in Hl.
  - rewrite (forallb_perm _ _ _ (Hperm _)), page_futures_map.
    destruct (forallb _ _) eqn:E; [|reflexivity].
    rewrite forallb_forall in E.
    rewrite <- Hdirty. symmetry. apply E, in_map, in_seq. lia.
  - eauto.
Qed.

(** X2. When the fetch of one page in 1..200 raises [e] (a transport
    error, the HTTPError of a 4xx or 5xx status, or the JSONDecodeError
    of a body that is not JSON) and every other page is served as an
    array, get_all_pages raises that very [e], in every completion
    order. *)
Theorem get_all_pages_raises_page_error :
  forall (http : request -> http_result)
         (order : list (future (nat * pyobj)) -> list (future (nat * pyobj)))
         (u : fstring) (ps : dict) (p : nat) (e : exn) (V : Type) (v : V),
    (forall l, Permutation (order l) l) ->
    (1 <= p <= MAX_PAGES)%nat ->
    snd (run_task (fetch_page http u ps p)) = Raise e ->
    (forall q, (1 <= q <= MAX_PAGES)%nat -> q <> p ->
               exists l, serves http u ps q l) ->
    exists log, get_all_pages http order u ps v = (log, v, Raise e).
Proof.
  intros http order u ps p e V v Hperm Hp Hraise Hothers.
  rewrite fetch_page_run in Hraise. simpl in Hraise.
  apply (one_bad_page_raises http order u ps p e v Hperm Hp); [| |exact Hothers].
  - unfold future_clean, page_future. simpl. now rewrite Hraise.
  - intro results. unfold page_future. rewrite Hraise.
    apply page_body_raised.
Qed.

Lemma srv_demo_serves_any (p : nat) :
  exists l, serves srv_demo demo_url demo_params p l.
Proof.
  unfold serves, srv_demo. rewrite page_request_param.
  eexists. eexists. split; [reflexivity|]. split; reflexivity.
Qed.

Lemma srv_variant_serves (srv : request -> http_result) (n : Z) (q : nat) :
  (forall req, page_param req <> Some (PyInt n) -> srv req = srv_demo req) ->
  Z.of_nat q <> n ->
  exists l, serves srv demo_url demo_params q l.
Proof.
  intros Hsrv Hq. destruct (srv_demo_serves_any q) as (l & r & Hr & Hrest).
  exists l, r. split; [|exact Hrest]. rewrite Hsrv; [exact Hr|].
  rewrite page_request_param. congruence.
Qed.

Lemma srv_html_else req :
  page_param req <> Some (PyInt 2) -> srv_html req = srv_demo req.
Proof.
  unfold srv_html. intro H.
  destruct (page_param req) as [[| | [|[[]|[]|]|] | | |]|]; try reflexivity.
  now exfalso.
Qed.

Lemma get_all_pages_raises_page_error_witness :
  exists log,
    get_all_pages srv_html (@rev _) demo_url demo_params tt
    = (log, tt, Raise JSONDecodeError).
Proof.
  apply (get_all_pages_raises_page_error srv_html (@rev _) demo_url
           demo_params 2 JSONDecodeError unit tt).
  - intro l. apply rev_perm.
  - unfold MAX_PAGES. lia.
  - reflexivity.
  - intros q _ Hq. apply (srv_variant_serves srv_html 2 q srv_html_else). lia.
Defined.

(** X3. A page in 1..200 whose body is a non-zero number or true is
    neither skipped nor aggregated: with every other page served as an
    array, get_all_pages raises TypeError, in every completion order. *)
Theorem get_all_pages_scalar_body :
  forall (http : request -> http_result)
         (order : list (future (nat * pyobj)) -> list (future (nat * pyobj)))
         (u : fstring) (ps : dict) (p : nat) (data : pyobj)
         (V : Type) (v : V),
    (forall l, Permutation (order l) l) ->
    (1 <= p <= MAX_PAGES)%nat ->
    snd (run_task (fetch_page http u ps p)) = Ok (p, data) ->
    truthy data = true ->
    is_scalar data = true ->
    (forall q, (1 <= q <= MAX_PAGES)%nat -> q <> p ->
               exists l, serves http u ps q l) ->
    exists log, get_all_pages http order u ps v = (log, v, Raise TypeError).
Proof.
  intros http order u ps p data V v Hperm Hp Hok Ht Hs Hothers.
  rewrite fetch_page_run in Hok. simpl in Hok.
  apply (one_bad_page_raises http order u ps p TypeError v Hperm Hp);
    [| |exact Hothers].
  - unfold future_clean, page_future. simpl. rewrite Hok, Ht.
    destruct data; try discriminate; reflexivity.
  - intro results. unfold page_future. rewrite Hok.
    now apply page_body_scalar.
Qed.

Lemma srv_number_else req :
  page_param req <> Some (PyInt 3) -> srv_number req = srv_demo req.
Proof.
  unfold srv_number. intro H.
  destruct (page_param req) as [[| | [|[[]|[]|]|] | | |]|]; try reflexivity.
  now exfalso.
Qed.

Lemma get_all_pages_scalar_body_witness :
  exists log,
    get_all_pages srv_number (fun l => l) demo_url demo_params tt
    = (log, tt, Raise TypeError).
Proof.
  apply (get_all_pages_scalar_body srv_number (fun l => l) demo_url
           demo_params 3 (PyInt 42) unit tt).
  - intro l. apply Permutation_refl.
  - unfold MAX_PAGES. lia.
  - reflexivity.
  - reflexivity.
  - reflexivity.
  - intros q _ Hq. apply (srv_variant_serves srv_number 3 q srv_number_else).
    lia.
Defined.

(** X4. When every page in 1..200 comes back with a falsy body of any
    kind (an empty array, null, false, 0, an empty str or an empty
    object), get_all_pages returns the empty list and prints no
    progress line. *)
Theorem get_all_pages_nothing :
  forall (http : request -> http_result)
         (order : list (future (nat * pyobj)) -> list (future (nat * pyobj)))
         (u : fstring) (ps : dict) (V : Type) (v : V),
    (forall l, Permutation (order l) l) ->
    (forall p, (1 <= p <= MAX_PAGES)%nat ->
               exists data,
                 snd (run_task (fetch_page http u ps p)) = Ok (p, data)
                 /\ truthy data = false) ->
    get_all_pages http order u ps v = ([], v, Ok []).
Proof.
  intros http order u ps V v Hperm Hall.
  assert (Hfs : forall f, In f (page_futures http u ps) ->
                          future_clean f = true /\ future_items f = []
                          /\ future_lines f = []).
  { intros f Hf. rewrite page_futures_map in Hf.
    apply in_map_iff in Hf as (p & <- & Hp). apply in_seq in Hp.
    destruct (Hall p) as (data & Hok & Ht); [lia|].
    rewrite fetch_page_run in Hok. simpl in Hok.
    unfold future_clean, future_items, future_lines, page_future. simpl.
    rewrite Hok, Ht. auto. }
  rewrite get_all_pages_clean; [|assumption|].
  - rewrite !flat_map_nil; [reflexivity| |];
      intros f Hf; apply (Permutation_in _ (Hperm _)) in Hf;
      now apply Hfs in Hf.
  - apply forallb_forall. intros f Hf. now apply Hfs in Hf.
Qed.

Lemma get_all_pages_nothing_witness :
  get_all_pages srv_falsy (@rev _) demo_url demo_params tt = ([], tt, Ok []).
Proof.
  apply (get_all_pages_nothing srv_falsy (@rev _) demo_url demo_params unit tt).
  - intro l. apply rev_perm.
  - intros p Hp. rewrite fetch_page_run. unfold page_outcome, srv_falsy.
    rewrite page_request_param.
    destruct p as [|[|[|[|p]]]]; [lia | | | |]; simpl;
      try (eexists; split; reflexivity).
    destruct (Pos.of_succ_nat p) as [[]|[]|]; eexists; split; reflexivity.
Defined.

(** In a run that returns, the items and the lines of each page stand
    together, where its future completed. *)
Lemma page_chunk http order u ps {V} (v : V) log results p :
  (forall l, Permutation (order l) l) ->
  get_all_pages http order u ps v = (log, v, Ok results) ->
  (1 <= p <= MAX_PAGES)%nat ->
  exists before after,
    results = flat_map future_items before
              ++ future_items (page_future http u ps p)
              ++ flat_map future_items after
    /\ log = flat_map future_lines before
             ++ future_lines (page_future http u ps p)
             ++ flat_map future_lines after.
Proof.
  intros Hperm Hrun Hp.
  pose proof (get_all_pages_ok_inv http order Hperm u ps v log results Hrun) as Hc.
  rewrite (get_all_pages_clean http order Hperm u ps v Hc) in Hrun.
  injection Hrun as <- <-.
  assert (Hin : In (page_future http u ps p) (order (page_futures http u ps))).
  { apply (Permutation_in _ (Permutation_sym (Hperm _))).
    rewrite page_futures_map. apply in_map, in_seq. lia. }
  apply in_split in Hin as (before & after & ->).
  exists before, after. rewrite !flat_map_app. simpl. auto.
Qed.

(** X5. In a run that returns, the items of a page served as an array
    stand in the result together and in the order served: items of two
    pages are never interleaved, whatever the completion order. *)
Theorem get_all_pages_page_together :
  forall (http : request -> http_result)
         (order : list (future (nat * pyobj)) -> list (future (nat * pyobj)))
         (u : fstring) (ps : dict) (V : Type) (v : V)
         (log : list line) (results : list pyobj) (p : nat)
         (l : list pyobj),
    (forall l, Permutation (order l) l) ->
    get_all_pages http order u ps v = (log, v, Ok results) ->
    (1 <= p <= MAX_PAGES)%nat ->
    serves http u ps p l ->
    exists l1 l2, results = l1 ++ l ++ l2.
Proof.
  intros http order u ps V v log results p l Hperm Hrun Hp Hserv.
  destruct (page_chunk http order u ps v log results p Hperm Hrun Hp)
    as (before & after & Hres & _).
  apply served_future_clean in Hserv as [_ Hitems].
  rewrite Hitems in Hres. eauto.
Qed.

Lemma get_all_pages_page_together_witness :
  exists l1 l2,
    [project3; project4; project1; project2]
    = l1 ++ [project1; project2] ++ l2.
Proof.
  apply (get_all_pages_page_together srv_demo (@rev _) demo_url demo_params
           unit tt [PageLine 2 2; PageLine 1 2]
           [project3; project4; project1; project2] 1 [project1; project2]).
  - intro l. apply rev_perm.
  - vm_compute. reflexivity.
  - unfold MAX_PAGES. lia.
  - apply (srv_demo_serves 1). unfold MAX_PAGES. lia.
Defined.

(** X6. A page answered with a JSON object without an error status is
    taken for a page of items: in a run that returns, the keys of the
    object stand in the result as strs, and the progress line of the page
    counts them. *)
Theorem get_all_pages_object_body :
  forall (http : request -> http_result)
         (order : list (future (nat * pyobj)) -> list (future (nat * pyobj)))
         (u : fstring) (ps : dict) (V : Type) (v : V)
         (log : list line) (results : list pyobj) (p : nat)
         (field : string * pyobj) (fields : list (string * pyobj)),
    (forall l, Permutation (order l) l) ->
    get_all_pages http order u ps v = (log, v, Ok results) ->
    (1 <= p <= MAX_PAGES)%nat ->
    snd (run_task (fetch_page http u ps p)) = Ok (p, PyDict (field :: fields)) ->
    (exists l1 l2,
       results = l1 ++ map (fun kv => PyStr (fst kv)) (field :: fields) ++ l2)
    /\ In (PageLine p (S (List.length fields))) log.
Proof.
  intros http order u ps V v log results p field fields Hperm Hrun Hp Hok.
  rewrite fetch_page_run in Hok. simpl in Hok.
  destruct (page_chunk http order u ps v log results p Hperm Hrun Hp)
    as (before & after & Hres & Hlog).
  assert (Hi : future_items (page_future http u ps p)
               = map (fun kv => PyStr (fst kv)) (field :: fields)).
  { unfold future_items, page_future. simpl. now rewrite Hok. }
  assert (Hl : future_lines (page_future http u ps p)
               = [PageLine p (S (List.length fields))]).
  { unfold future_lines, page_future. simpl. now rewrite Hok. }
  rewrite Hi in Hres. rewrite Hl in Hlog. split.
  - eauto.
  - rewrite Hlog. apply in_or_app. right. now left.
Qed.

Lemma get_all_pages_object_body_witness :
  (exists l1 l2,
     [PyStr "message"; PyStr "documentation_url"; project1; project2]
     = l1 ++ map (fun kv => PyStr (fst kv))
               [("message", PyStr "moved");
                ("documentation_url", PyStr "/help")] ++ l2)
  /\ In (PageLine 2 2) [PageLine 2 2; PageLine 1 2].
Proof.
  apply (get_all_pages_object_body srv_object (@rev _) demo_url demo_params
           unit tt [PageLine 2 2; PageLine 1 2]
           [PyStr "message"; PyStr "documentation_url"; project1; project2]
           2 ("message", PyStr "moved") [("documentation_url", PyStr "/help")]).
  - intro l. apply rev_perm.
  - vm_compute. reflexivity.
  - unfold MAX_PAGES. lia.
  - reflexivity.
Defined.

Lemma future_counts f :
  future_clean f = true ->
  list_sum (map line_count (future_lines f)) = List.length (future_items f).
Proof.
  unfold future_clean, future_lines, future_items.
  destruct (snd f) as [[pg data]|e]; [|discriminate].
  destruct (truthy data); [|reflexivity].
  destruct data; simpl; try discriminate; intros _;
    rewrite ?length_map, ?Nat.add_0_r; reflexivity.
Qed.

(** X7. In a run that returns, the item counts of the progress lines add
    up to the length of the returned list. *)
Theorem get_all_pages_counts_add_up :
  forall (http : request -> http_result)
         (order : list (future (nat * pyobj)) -> list (future (nat * pyobj)))
         (u : fstring) (ps : dict) (V : Type) (v : V)
         (log : list line) (results : list pyobj),
    (forall l, Permutation (order l) l) ->
    get_all_pages http order u ps v = (log, v, Ok results) ->
    list_sum (map line_count log) = List.length results.
Proof.
  intros http order u ps V v log results Hperm Hrun.
  pose proof (get_all_pages_ok_inv http order Hperm u ps v log results Hrun) as Hc.
  rewrite (get_all_pages_clean http order Hperm u ps v Hc) in Hrun.
  injection Hrun as <- <-.
  rewrite (forallb_perm _ _ _ (Permutation_sym (Hperm (page_futures http u ps))))
    in Hc.
  induction (order (page_futures http u ps)) as [|f fs IH]; [reflexivity|].
  simpl in Hc. apply andb_true_iff in Hc as [Hf Hfs]. simpl.
  rewrite map_app, list_sum_app, length_app, (future_counts f Hf), (IH Hfs).
  reflexivity.
Qed.

Lemma get_all_pages_counts_add_up_witness :
  list_sum (map line_count [PageLine 2 2; PageLine 1 2])
  = List.length [project3; project4; project1; project2].
Proof.
  apply (get_all_pages_counts_add_up srv_demo (@rev _) demo_url demo_params
           unit tt).
  - intro l. apply rev_perm.
  - vm_compute. reflexivity.
Defined.


(** ** The commit probe *)

(** X8. has_user_commits never sends more than two requests: the
    primary request first, and then at most the fallback request. *)
Theorem has_user_commits_requests :
  forall (http : request -> http_result) (base username : string)
         (project_id : pyobj),
    fst (run_task (has_user_commits http base username project_id))
    = [primary_request base username project_id]
    \/ fst (run_task (has_user_commits http base username project_id))
       = [primary_request base username project_id;
          fallback_request base username project_id].
Proof.
  intros http base username project_id. rewrite has_user_commits_run.
  destruct (request_matches http (primary_request base username project_id))
    as [[|]|e]; auto.
Qed.

Lemma request_matches_response http req r :
  http req = Returned r ->
  (status_code r = 200 -> json_body r <> None) ->
  request_matches http req = Ok (response_matches r).
Proof.
  intros Hr Hjson. unfold request_matches, response_matches. rewrite Hr.
  destruct (Z.eqb_spec (status_code r) 200) as [E|_]; [|reflexivity].
  destruct (json_body r); [reflexivity | now exfalso; apply Hjson].
Qed.

(** X9. When both requests are answered (with a JSON body wherever the
    status is 200), has_user_commits returns true exactly when the
    primary or the fallback response has status 200 and a truthy body.
    Any other status, 2xx ones such as 206 included, counts as no match
    and its body is not looked at. *)
Theorem has_user_commits_decision :
  forall (http : request -> http_result) (base username : string)
         (project_id : pyobj) (r1 r2 : response),
    http (primary_request base username project_id) = Returned r1 ->
    http (fallback_request base username project_id) = Returned r2 ->
    (status_code r1 = 200 -> json_body r1 <> None) ->
    (status_code r2 = 200 -> json_body r2 <> None) ->
    snd (run_task (has_user_commits http base username project_id))
    = Ok (response_matches r1 || response_matches r2).
Proof.
  intros http base username project_id r1 r2 H1 H2 Hj1 Hj2.
  rewrite has_user_commits_run.
  rewrite (request_matches_response _ _ _ H1 Hj1).
  destruct (response_matches r1); [reflexivity|]. simpl.
  apply (request_matches_response _ _ _ H2 Hj2).
Qed.

Lemma has_user_commits_decision_witness :
  snd (run_task (has_user_commits srv_demo "https://gitlab.com/api/v4" "alice"
                   (PyInt 3)))
  = Ok (response_matches {| status_code := 404; json_body := None |}
        || response_matches {| status_code := 200;
                               json_body := Some (PyList [a_commit]) |}).
Proof.
  apply (has_user_commits_decision srv_demo "https://gitlab.com/api/v4"
           "alice" (PyInt 3)).
  - reflexivity.
  - reflexivity.
  - simpl. intro H. discriminate H.
  - simpl. intros _ H. discriminate H.
Defined.

Lemma request_raises_matches http req e :
  request_raises http req e -> request_matches http req = Raise e.
Proof.
  unfold request_matches.
  intros [H|(r & Hr & Hst & Hbody & ->)].
  - now rewrite H.
  - now rewrite Hr, Hst, Hbody.
Qed.

(** X10. When the primary request fails (the connection fails, or the
    answer has status 200 and a body that is not JSON), has_user_commits
    raises that error and does not try the fallback request. *)
Theorem has_user_commits_primary_error :
  forall (http : request -> http_result) (base username : string)
         (project_id : pyobj) (e : exn),
    request_raises http (primary_request base username project_id) e ->
    run_task (has_user_commits http base username project_id)
    = ([primary_request base username project_id], Raise e).
Proof.
  intros http base username project_id e H.
  rewrite has_user_commits_run. now rewrite (request_raises_matches _ _ _ H).
Qed.

Lemma has_user_commits_primary_error_witness :
  run_task (has_user_commits srv_probe_html "https://gitlab.com/api/v4"
              "alice" (PyInt 6))
  = ([primary_request "https://gitlab.com/api/v4" "alice" (PyInt 6)],
     Raise JSONDecodeError).
Proof.
  apply (has_user_commits_primary_error srv_probe_html
           "https://gitlab.com/api/v4" "alice" (PyInt 6) JSONDecodeError).
  right. eexists. repeat split; reflexivity.
Defined.

(** X11. When the primary request is answered without a match and the
    fallback request fails, has_user_commits raises the error of the
    fallback request: the answer of the primary request is not kept as a
    "no". *)
Theorem has_user_commits_fallback_error :
  forall (http : request -> http_result) (base username : string)
         (project_id : pyobj) (r1 : response) (e : exn),
    http (primary_request base username project_id) = Returned r1 ->
    (status_code r1 = 200 -> json_body r1 <> None) ->
    response_matches r1 = false ->
    request_raises http (fallback_request base username project_id) e ->
    run_task (has_user_commits http base username project_id)
    = ([primary_request base username project_id;
        fallback_request base username project_id], Raise e).
Proof.
  intros http base username project_id r1 e H1 Hj1 Hm H2.
  rewrite has_user_commits_run.
  rewrite (request_matches_response _ _ _ H1 Hj1), Hm.
  now rewrite (request_raises_matches _ _ _ H2).
Qed.

Lemma has_user_commits_fallback_error_witness :
  run_task (has_user_commits srv_probe_html "https://gitlab.com/api/v4"
              "alice" (PyInt 7))
  = ([primary_request "https://gitlab.com/api/v4" "alice" (PyInt 7);
      fallback_request "https://gitlab.com/api/v4" "alice" (PyInt 7)],
     Raise JSONDecodeError).
Proof.
  apply (has_user_commits_fallback_error srv_probe_html
           "https://gitlab.com/api/v4" "alice" (PyInt 7)
           {| status_code := 206; json_body := Some (PyList [a_commit]) |}
           JSONDecodeError).
  - reflexivity.
  - simpl. intro H. discriminate H.
  - reflexivity.
  - right. eexists. repeat split; reflexivity.
Defined.


(** ** The probing stage *)

Lemma probe_body_line total p f g path :
  subscript p "path_with_namespace" = Ok path ->
  exists l,
    probe_body total (p, f) g
    = ([l],
       {| committed := committed g ++ (if future_true (p, f) then [p] else []);
          checked := S (checked g) |},
       Ok tt)
    /\ line_counter l = (S (checked g), total)
    /\ line_info l = future_info (p, f).
Proof.
  intro Hpath.
  unfold probe_body, future_true, future_info, try_except,
    future_result, bind, lift, modify, get, emit.
  destruct f as [t [[|]|e]]; simpl; rewrite Hpath; simpl;
    eexists; rewrite ?app_nil_r; repeat split; reflexivity.
Qed.

Lemma probe_loop_log total completed : forall g,
  Forall (fun pf => has_field (fst pf) "path_with_namespace" = true) completed ->
  exists log,
    for_each completed (probe_body total) g
    = (log,
       {| committed := committed g ++ map fst (filter future_true completed);
          checked := checked g + List.length completed |},
       Ok tt)
    /\ map line_counter log
       = map (fun k => (k, total)) (seq (S (checked g)) (List.length completed))
    /\ map line_info log = map future_info completed.
Proof.
  induction completed as [|[p f] completed IH]; intros g H; cbn [for_each].
  - exists []. unfold ret. simpl. rewrite app_nil_r, Nat.add_0_r.
    destruct g; auto.
  - inversion H as [|? ? Hp Hrest]; subst. simpl in Hp.
    unfold has_field in Hp.
    destruct (subscript p "path_with_namespace") as [path|] eqn:Hpath;
      [|discriminate].
    destruct (probe_body_line total p f g path Hpath) as (l & Hbody & Hc & Hi).
    unfold bind. rewrite Hbody.
    destruct (IH {| committed := committed g ++ (if future_true (p, f) then [p] else []);
                    checked := S (checked g) |} Hrest)
      as (log & Hloop & Hcs & His).
    rewrite Hloop. exists (l :: log). split; [|split].
    + simpl. f_equal. f_equal.
      destruct (future_true (p, f)); simpl;
        rewrite <- ?app_assoc, ?app_nil_r, <- plus_n_Sm; reflexivity.
    + simpl. rewrite Hc. f_equal. exact Hcs.
    + simpl. rewrite Hi. f_equal. exact His.
Qed.

(** The probing stage on records that have an id and a path. *)
Lemma probe_all_run http base username order all_projects :
  (forall l, Permutation (order l) l) ->
  Forall (fun p => is_project p = true) all_projects ->
  exists log,
    probe_all http base username order all_projects globals0
    = (log,
       {| committed :=
            map fst (filter future_true
                       (order (map (fun p => (p, project_future http base username p))
                                 all_projects)));
          checked := List.length all_projects |},
       Ok tt)
    /\ map line_counter log
       = map (fun k => (k, List.length all_projects))
           (seq 1 (List.length all_projects))
    /\ map line_info log
       = map future_info
           (order (map (fun p => (p, project_future http base username p))
                     all_projects)).
Proof.
  intros Hperm Hwf.
  set (futures := map (fun p => (p, project_future http base username p))
                    all_projects).
  assert (Hpaths : Forall (fun pf => has_field (fst pf) "path_with_namespace" = true)
                     (order futures)).
  { apply (Permutation_Forall (Permutation_sym (Hperm futures))).
    unfold futures. apply Forall_map. simpl.
    eapply Forall_impl; [|exact Hwf]. intros p Hp.
    unfold is_project in Hp. now apply andb_true_iff in Hp as [_ Hp]. }
  destruct (probe_loop_log (List.length all_projects) (order futures) globals0
              Hpaths) as (log & Hloop & Hcs & His).
  assert (Hlen : List.length (order futures) = List.length all_projects).
  { rewrite (Permutation_length (Hperm futures)). unfold futures.
    apply length_map. }
  exists log. split; [|split].
  - unfold probe_all, bind. rewrite (probe_futures_run _ _ _ _ _ Hwf).
    fold futures. rewrite Hloop. simpl. now rewrite Hlen.
  - rewrite Hcs, Hlen. reflexivity.
  - exact His.
Qed.

(** X12. On records that have an id and a path, the probing stage
    prints one progress line per project: the k-th line is numbered
    [k/M], and the lines, taken together, give each project's path with
    the verdict of its probe (matched, not matched, or failed with the
    error). *)
Theorem probe_all_progress :
  forall (http : request -> http_result) (base username : string)
         (order : list (pyobj * future bool) -> list (pyobj * future bool))
         (all_projects : list pyobj),
    (forall l, Permutation (order l) l) ->
    Forall (fun p => is_project p = true) all_projects ->
    exists log g,
      probe_all http base username order all_projects globals0 = (log, g, Ok tt)
      /\ map line_counter log
         = map (fun k => (k, List.length all_projects))
             (seq 1 (List.length all_projects))
      /\ Permutation (map line_info log)
           (map (project_info http base username) all_projects).
Proof.
  intros http base username order all_projects Hperm Hwf.
  destruct (probe_all_run http base username order all_projects Hperm Hwf)
    as (log & Hrun & Hcs & His).
  exists log. eexists. split; [exact Hrun|]. split; [exact Hcs|].
  rewrite His. unfold project_info.
  rewrite <- (map_map (fun p => (p, project_future http base username p))
                future_info).
  apply Permutation_map, Hperm.
Qed.

Lemma probe_all_progress_witness :
  exists log g,
    probe_all srv_demo "https://gitlab.com/api/v4" "alice" (@rev _)
      [project1; project2; project3; project4] globals0
    = (log, g, Ok tt)
    /\ map line_counter log
       = map (fun k => (k, 4%nat)) (seq 1 4)
    /\ Permutation (map line_info log)
         (map (project_info srv_demo "https://gitlab.com/api/v4" "alice")
            [project1; project2; project3; project4]).
Proof.
  apply (probe_all_progress srv_demo "https://gitlab.com/api/v4" "alice"
           (@rev _) [project1; project2; project3; project4]).
  - intro l. apply rev_perm.
  - repeat constructor.
Defined.

(** X13. On records that have an id and a path, the matched set lists
    the projects whose probe returned true in the order in which their
    probes completed; when the probes complete in submission order, that
    is the order of the project list. *)
Theorem probe_all_completion_order :
  forall (http : request -> http_result) (base username : string)
         (order : list (pyobj * future bool) -> list (pyobj * future bool))
         (all_projects : list pyobj),
    (forall l, Permutation (order l) l) ->
    Forall (fun p => is_project p = true) all_projects ->
    committed (snd (fst (probe_all http base username order all_projects
                           globals0)))
    = map fst (filter future_true
                 (order (map (fun p => (p, project_future http base username p))
                           all_projects)))
    /\ committed (snd (fst (probe_all http base username (fun l => l)
                              all_projects globals0)))
       = filter (probe_true http base username) all_projects.
Proof.
  intros http base username order all_projects Hperm Hwf.
  destruct (probe_all_run http base username order all_projects Hperm Hwf)
    as (log & Hrun & _).
  destruct (probe_all_run http base username (fun l => l) all_projects
              (fun l => Permutation_refl l) Hwf) as (log' & Hrun' & _).
  rewrite Hrun, Hrun'. simpl. split; [reflexivity|].
  apply filter_futures.
Qed.

Lemma probe_all_completion_order_witness :
  committed (snd (fst (probe_all srv_demo "https://gitlab.com/api/v4" "alice"
                         (@rev _) [project1; project2; project3; project4]
                         globals0)))
  = [project3; project1]
  /\ committed (snd (fst (probe_all srv_demo "https://gitlab.com/api/v4"
                            "alice" (fun l => l)
                            [project1; project2; project3; project4] globals0)))
     = [project1; project3].
Proof.
  apply (probe_all_completion_order srv_demo "https://gitlab.com/api/v4"
           "alice" (@rev _) [project1; project2; project3; project4]).
  - intro l. apply rev_perm.
  - repeat constructor.
Defined.

Lemma probe_futures_raises http base username {V} (v : V) l1 p l2 e :
  Forall (fun q => has_field q "id" = true) l1 ->
  subscript p "id" = Raise e ->
  probe_futures http base username (l1 ++ p :: l2) v = ([], v, Raise e).
Proof.
  intros Hl1 Hp. induction Hl1 as [|q l1 Hq _ IH]; simpl.
  - unfold bind, lift. now rewrite Hp.
  - unfold bind, lift in *. unfold has_field in Hq.
    destruct (subscript q "id"); [|discriminate]. now rewrite IH.
Qed.

(** X14. A record from which ["id"] cannot be read stops the probing
    stage before the loop starts: the stage raises the error of that
    subscript (the KeyError of a dict without the key), prints no
    progress line, and leaves the matched set empty and the counter at
    0, whatever the other records and the probes are. *)
Theorem probe_all_missing_id :
  forall (http : request -> http_result) (base username : string)
         (order : list (pyobj * future bool) -> list (pyobj * future bool))
         (l1 l2 : list pyobj) (p : pyobj) (e : exn),
    Forall (fun q => has_field q "id" = true) l1 ->
    subscript p "id" = Raise e ->
    probe_all http base username order (l1 ++ p :: l2) globals0
    = ([], globals0, Raise e).
Proof.
  intros http base username order l1 l2 p e Hl1 Hp.
  unfold probe_all, bind.
  now rewrite (probe_futures_raises http base username globals0 l1 p l2 e Hl1 Hp).
Qed.

Lemma probe_all_missing_id_witness :
  probe_all srv_demo "https://gitlab.com/api/v4" "alice" (@rev _)
    ([project1; project2] ++ project_no_id :: [project3]) globals0
  = ([], globals0, Raise (KeyError "id")).
Proof.
  apply (probe_all_missing_id srv_demo "https://gitlab.com/api/v4" "alice"
           (@rev _) [project1; project2] [project3] project_no_id
           (KeyError "id")).
  - repeat constructor.
  - reflexivity.
Defined.

Lemma probe_futures_ids http base username {V} (v : V) all_projects :
  Forall (fun p => has_field p "id" = true) all_projects ->
  probe_futures http base username all_projects v
  = ([], v, Ok (map (fun p => (p, project_future http base username p))
                  all_projects)).
Proof.
  induction 1 as [|p rest Hp _ IH]; simpl; [reflexivity|].
  unfold bind, lift, ret, project_future in *. rewrite IH.
  unfold has_field in Hp.
  destruct (subscript p "id"); [reflexivity | discriminate].
Qed.

Lemma missing_path_error p :
  has_field p "id" = true ->
  has_field p "path_with_namespace" = false ->
  subscript p "path_with_namespace" = Raise (KeyError "path_with_namespace").
Proof.
  unfold has_field, subscript. destruct p; try discriminate.
  intros _. destruct (dict_get fields "path_with_namespace");
    [discriminate | reflexivity].
Qed.

Lemma probe_body_no_path total p f g :
  subscript p "path_with_namespace" = Raise (KeyError "path_with_namespace") ->
  exists g',
    probe_body total (p, f) g
    = ([], g', Raise (KeyError "path_with_namespace")).
Proof.
  intro Hpath.
  unfold probe_body, try_except, future_result, bind, lift, modify, get, emit.
  destruct f as [t [[|]|e]]; simpl; rewrite Hpath; simpl; eauto.
Qed.

Lemma probe_loop_no_path total completed : forall g,
  Forall (fun pf => has_field (fst pf) "id" = true) completed ->
  Exists (fun pf => has_field (fst pf) "path_with_namespace" = false) completed ->
  exists log g',
    for_each completed (probe_body total) g
    = (log, g', Raise (KeyError "path_with_namespace"))
    /\ (List.length log < List.length completed)%nat.
Proof.
  induction completed as [|[p f] completed IH]; intros g Hids Hex;
    [inversion Hex|].
  inversion Hids as [|? ? Hid Hrest]; subst. simpl in Hid.
  cbn [for_each]. unfold bind.
  destruct (has_field p "path_with_namespace") eqn:Hp.
  - assert (Hex' : Exists (fun pf => has_field (fst pf) "path_with_namespace" = false)
                     completed).
    { inversion Hex as [? ? Hhd|]; subst; [|assumption].
      simpl in Hhd. congruence. }
    destruct (probe_body_run total p f g Hp) as (l & -> & _).
    destruct (IH {| committed := committed g ++ (if future_true (p, f) then [p] else []);
                    checked := S (checked g) |} Hrest Hex')
      as (log & g' & -> & Hlen).
    exists (l :: log), g'. simpl. split; [reflexivity | lia].
  - destruct (probe_body_no_path total p f g (missing_path_error p Hid Hp))
      as (g' & ->).
    exists [], g'. simpl. split; [reflexivity | lia].
Qed.

(** X15. A record with an id and without ["path_with_namespace"] makes
    the probing stage raise KeyError, whatever its probe returned or
    raised: the handler of the try block reads the same field again.
    Fewer lines than projects are printed. *)
Theorem probe_all_missing_path :
  forall (http : request -> http_result) (base username : string)
         (order : list (pyobj * future bool) -> list (pyobj * future bool))
         (all_projects : list pyobj),
    (forall l, Permutation (order l) l) ->
    Forall (fun p => has_field p "id" = true) all_projects ->
    Exists (fun p => has_field p "path_with_namespace" = false) all_projects ->
    exists log g,
      probe_all http base username order all_projects globals0
      = (log, g, Raise (KeyError "path_with_namespace"))
      /\ (List.length log < List.length all_projects)%nat.
Proof.
  intros http base username order all_projects Hperm Hids Hex.
  set (futures := map (fun p => (p, project_future http base username p))
                    all_projects).
  destruct (probe_loop_no_path (List.length all_projects) (order futures)
              globals0) as (log & g & Hloop & Hlen).
  - apply (Permutation_Forall (Permutation_sym (Hperm futures))).
    unfold futures. apply Forall_map. exact Hids.
  - apply (Permutation_Exists (Permutation_sym (Hperm futures))).
    unfold futures. apply Exists_map. exact Hex.
  - exists log, g. split.
    + unfold probe_all, bind. rewrite (probe_futures_ids _ _ _ _ _ Hids).
      fold futures. now rewrite Hloop.
    + rewrite (Permutation_length (Hperm futures)) in Hlen.
      unfold futures in Hlen. now rewrite length_map in Hlen.
Qed.

Lemma probe_all_missing_path_witness :
  exists log g,
    probe_all srv_demo "https://gitlab.com/api/v4" "alice" (fun l => l)
      [project2; project_no_path; project3] globals0
    = (log, g, Raise (KeyError "path_with_namespace"))
    /\ (List.length log < 3)%nat.
Proof.
  apply (probe_all_missing_path srv_demo "https://gitlab.com/api/v4" "alice"
           (fun l => l) [project2; project_no_path; project3]).
  - intro l. apply Permutation_refl.
  - repeat constructor.
  - right. left. reflexivity.
Defined.


(** ** Sorting and the report *)

Lemma ltb_irrefl (s : string) : String.ltb s s = false.
Proof.
  destruct (String.ltb s s) eqn:E; [|reflexivity].
  pose proof (ltb_asym s s E). congruence.
Qed.

Lemma insert_desc_filter {A} (k : string) (x : string * A) l :
  filter (fun kp => String.eqb (fst kp) k) (insert_desc x l)
  = filter (fun kp => String.eqb (fst kp) k) (x :: l).
Proof.
  induction l as [|y l IH]; [reflexivity|].
  cbn [insert_desc]. destruct (String.ltb (fst x) (fst y)) eqn:E; [|reflexivity].
  cbn [filter] in *. rewrite IH.
  destruct (String.eqb_spec (fst y) k) as [Hy|Hy]; [|reflexivity].
  destruct (String.eqb_spec (fst x) k) as [Hx|Hx]; [|reflexivity].
  rewrite Hx, Hy, ltb_irrefl in E. discriminate.
Qed.

Lemma sort_desc_filter {A} (k : string) (l : list (string * A)) :
  filter (fun kp => String.eqb (fst kp) k) (sort_desc l)
  = filter (fun kp => String.eqb (fst kp) k) l.
Proof.
  induction l as [|x l IH]; [reflexivity|].
  cbn [sort_desc fold_right]. rewrite insert_desc_filter.
  cbn [filter]. fold (sort_desc l). now rewrite IH.
Qed.

Lemma filter_keys (k : string) (d : list (string * pyobj)) :
  Forall (fun kp => activity_key (snd kp) = Some (fst kp)) d ->
  filter (key_is k) (map snd d)
  = map snd (filter (fun kp => String.eqb (fst kp) k) d).
Proof.
  induction 1 as [|kp d Hkp _ IH]; [reflexivity|].
  simpl. unfold key_is at 1. rewrite Hkp.
  destruct (String.eqb (fst kp) k); simpl; now rewrite IH.
Qed.

(** The sort in terms of the key it computes. *)
Lemma sort_committed_by_key :
  forall (c : list pyobj),
    Forall (fun q => activity_key q <> None) c ->
    exists sorted,
      sort_committed c = Some sorted
      /\ Permutation sorted c
      /\ StronglySorted key_ge sorted
      /\ forall k, filter (key_is k) sorted = filter (key_is k) c.
Proof.
  intros c H. destruct (decorate_some c H) as (d & Hd & Hmap & Hkeys).
  assert (Hkeys' : Forall (fun kp => activity_key (snd kp) = Some (fst kp))
                     (sort_desc d)).
  { apply (Permutation_Forall (Permutation_sym (sort_desc_perm d))), Hkeys. }
  exists (map snd (sort_desc d)). unfold sort_committed. rewrite Hd.
  split; [reflexivity|]. split; [|split].
  - rewrite <- Hmap. apply Permutation_map, sort_desc_perm.
  - apply sorted_keys; [exact Hkeys' | apply sort_desc_sorted].
  - intro k. rewrite (filter_keys k _ Hkeys'), sort_desc_filter,
      <- (filter_keys k _ Hkeys), Hmap. reflexivity.
Qed.

(** X16. On records whose last activity is a str or missing, the sort of
    line 73 returns a permutation of the matched set in descending order
    of the str under "last_activity_at" (a missing one counting as ""),
    and records with the same last activity keep the order they had. *)
Theorem sort_committed_stable :
  forall (c : list pyobj),
    Forall str_or_missing c ->
    exists sorted,
      sort_committed c = Some sorted
      /\ Permutation sorted c
      /\ StronglySorted activity_ge sorted
      /\ forall k, filter (activity_is k) sorted = filter (activity_is k) c.
Proof.
  intros c Hstr.
  assert (Hkeys : Forall (fun q => activity_key q <> None) c).
  { eapply Forall_impl; [|exact Hstr]. apply str_or_missing_key. }
  destruct (sort_committed_by_key c Hkeys) as (sorted & Hsort & Hperm & Hs & Hst).
  exists sorted. split; [exact Hsort|]. split; [exact Hperm|].
  split; [now apply sorted_by_activity|].
  intro k.
  rewrite (filter_ext (activity_is k) (key_is k) (activity_is_key k)).
  rewrite (filter_ext (activity_is k) (key_is k) (activity_is_key k)).
  apply Hst.
Qed.

Lemma sort_committed_stable_witness :
  exists sorted,
    sort_committed [project1; project5; project2; project6] = Some sorted
    /\ Permutation sorted [project1; project5; project2; project6]
    /\ StronglySorted activity_ge sorted
    /\ forall k, filter (activity_is k) sorted
                 = filter (activity_is k) [project1; project5; project2; project6].
Proof.
  apply (sort_committed_stable [project1; project5; project2; project6]).
  repeat (constructor;
          [eexists; first [apply activity_present; reflexivity
                          | apply activity_missing; reflexivity]|]).
  constructor.
Defined.







(** ** The script *)

(** Lines 5-7: any number of arguments other than two ends in the usage
    line and status 1. *)
Lemma script_usage :
  forall (prog : string) (args : list string)
         (environ : string -> option string)
         (open_file : string -> result unit)
         (server : dict -> request -> http_result)
         (order1 : list (future (nat * pyobj)) -> list (future (nat * pyobj)))
         (order2 : list (pyobj * future bool) -> list (pyobj * future bool)),
    List.length args <> 2%nat ->
    script prog args environ open_file server order1 order2
    = Some {| stdout := [Usage prog]; stderr := []; written := None;
              ended := Exit 1 |}.
Proof.
  intros prog args environ open_file server order1 order2 Hlen.
  destruct args as [|a [|b [|c args]]]; try reflexivity.
  now exfalso.
Qed.





(** The pagination stage of the script when every page is served. *)
Lemma script_pages_served http order u ps (items : nat -> list pyobj) :
  (forall l, Permutation (order l) l) ->
  (forall p, (1 <= p <= MAX_PAGES)%nat -> serves http u ps p (items p)) ->
  exists log all_projects,
    get_all_pages http order u ps tt = (log, tt, Ok all_projects)
    /\ Permutation all_projects (flat_map items (seq 1 MAX_PAGES)).
Proof.
  intros Hperm Hserv.
  destruct (served_pages_clean http u ps items (seq 1 MAX_PAGES)) as [Hc Hi].
  { intros p Hp. apply Hserv. apply in_seq in Hp. lia. }
  rewrite <- page_futures_eq in Hc, Hi.
  do 2 eexists. split; [apply (get_all_pages_clean http order Hperm u ps tt Hc)|].
  rewrite <- Hi. apply Permutation_flat_map, Hperm.
Qed.



Lemma gitlab_demo_serves (p : nat) :
  (1 <= p <= MAX_PAGES)%nat ->
  serves (gitlab_demo [("PRIVATE-TOKEN", PyStr "glpat-demo")])
    (membership_url (api_base no_environ)) membership_params p (demo_pages p).
Proof. exact (srv_demo_serves p). Qed.

Lemma demo_pages_all :
  flat_map demo_pages (seq 1 MAX_PAGES) = [project1; project2; project3; project4].
Proof. vm_compute. reflexivity. Qed.


(** The run of the script on the small GitLab: projects 3 and 1 are
    reported, the later activity first. *)
Example script_demo :
  script "gitlabprojects.py" ["glpat-demo"; "alice"] no_environ open_flat
    gitlab_demo (@rev _) (@rev _)
  = Some {| stdout := [];
            stderr := [Fetching;
                       Progress (PageLine 2 2); Progress (PageLine 1 2);
                       Total 4; Checking;
                       Progress (NotMatched 1 4 (PyStr "team/beta"));
                       Progress (Matched 2 4 (PyStr "team/alpha"));
                       Progress (Failed 3 4 (PyStr "team/delta")
                                   (RequestException "connection reset"));
                       Progress (Matched 4 4 (PyStr "team/gamma"));
                       CommittedTo 2;
                       Saved "gitlab_committed_alice.csv"];
            written :=
              Some ("gitlab_committed_alice.csv",
                    [report_header;
                     [PyStr "2024-02-11T17:45:00Z"; PyStr "team/gamma";
                      PyStr "https://gitlab.com/team/gamma"];
                     [PyStr "2024-01-05T10:00:00Z"; PyStr "team/alpha";
                      PyStr "https://gitlab.com/team/alpha"]]);
            ended := Done |}.
Proof. vm_compute. reflexivity. Qed.

(** X22. With two arguments and every membership page served as an
    array of records that have an id, one record without
    ["path_with_namespace"] makes the script die with KeyError in the
    probing stage, for every completion order: no file is written, also
    when other projects matched. *)
Theorem script_probe_crash :
  forall (prog token username : string)
         (environ : string -> option string)
         (open_file : string -> result unit)
         (server : dict -> request -> http_result)
         (order1 : list (future (nat * pyobj)) -> list (future (nat * pyobj)))
         (order2 : list (pyobj * future bool) -> list (pyobj * future bool))
         (items : nat -> list pyobj),
    (forall l, Permutation (order1 l) l) ->
    (forall l, Permutation (order2 l) l) ->
    (forall p, (1 <= p <= MAX_PAGES)%nat ->
               serves (server [("PRIVATE-TOKEN", PyStr token)])
                 (membership_url (api_base environ)) membership_params p
                 (items p)) ->
    Forall (fun q => has_field q "id" = true)
      (flat_map items (seq 1 MAX_PAGES)) ->
    Exists (fun q => has_field q "path_with_namespace" = false)
      (flat_map items (seq 1 MAX_PAGES)) ->
    exists err,
      script prog [token; username] environ open_file server order1 order2
      = Some {| stdout := []; stderr := err; written := None;
                ended := Traceback (KeyError "path_with_namespace") |}.
Proof.
  intros prog token username environ open_file server order1 order2 items
    Hp1 Hp2 Hserv Hids Hex.
  set (http := server [("PRIVATE-TOKEN", PyStr token)]) in *.
  set (base := api_base environ) in *.
  destruct (script_pages_served http order1 (membership_url base)
              membership_params items Hp1 Hserv)
    as (log1 & all_projects & Hfetch & Hall).
  apply (Permutation_Forall (Permutation_sym Hall)) in Hids.
  apply (Permutation_Exists (Permutation_sym Hall)) in Hex.
  set (futures := map (fun p => (p, project_future http base username p))
                    all_projects).
  destruct (probe_loop_no_path (List.length all_projects) (order2 futures)
              globals0) as (log2 & g & Hloop & _).
  - apply (Permutation_Forall (Permutation_sym (Hp2 futures))).
    unfold futures. apply Forall_map. exact Hids.
  - apply (Permutation_Exists (Permutation_sym (Hp2 futures))).
    unfold futures. apply Exists_map. exact Hex.
  - eexists. unfold script. fold http. fold base. rewrite Hfetch.
    unfold probe_all, bind. rewrite (probe_futures_ids _ _ _ _ _ Hids).
    fold futures. rewrite Hloop. reflexivity.
Qed.

Lemma gitlab_no_path_serves (p : nat) :
  serves (gitlab_no_path [("PRIVATE-TOKEN", PyStr "glpat-demo")])
    (membership_url (api_base no_environ)) membership_params p
    (match p with
     | 1%nat => [project1; project2]
     | 2%nat => [project_no_path]
     | _ => []
     end).
Proof.
  unfold serves, gitlab_no_path, srv_demo. rewrite page_request_param.
  destruct p as [|[|[|p]]]; try (eexists; split; [reflexivity|]; split; reflexivity).
  simpl. destruct (Pos.of_succ_nat p) as [[]|[]|]; simpl;
    eexists; split; try reflexivity; split; reflexivity.
Qed.

Lemma script_probe_crash_witness :
  exists err,
    script "gitlabprojects.py" ["glpat-demo"; "alice"] no_environ open_flat
      gitlab_no_path (fun l => l) (fun l => l)
    = Some {| stdout := []; stderr := err; written := None;
              ended := Traceback (KeyError "path_with_namespace") |}.
Proof.
  apply (script_probe_crash "gitlabprojects.py" "glpat-demo" "alice"
           no_environ open_flat gitlab_no_path (fun l => l) (fun l => l)
           (fun p => match p with
                     | 1%nat => [project1; project2]
                     | 2%nat => [project_no_path]
                     | _ => []
                     end)).
  - intro l. apply Permutation_refl.
  - intro l. apply Permutation_refl.
  - intros p _. apply gitlab_no_path_serves.
  - vm_compute. repeat constructor.
  - vm_compute. right. right. left. reflexivity.
Defined.





(** A user name with a slash: both stages run, the file cannot be
    opened, and the script dies without a report. *)
Example script_open_fails :
  script "gitlabprojects.py" ["glpat-demo"; "a/b"] no_environ open_flat
    gitlab_demo (fun l => l) (fun l => l)
  = Some {| stdout := [];
            stderr := [Fetching;
                       Progress (PageLine 1 2); Progress (PageLine 2 2);
                       Total 4; Checking;
                       Progress (Matched 1 4 (PyStr "team/alpha"));
                       Progress (NotMatched 2 4 (PyStr "team/beta"));
                       Progress (Matched 3 4 (PyStr "team/gamma"));
                       Progress (Failed 4 4 (PyStr "team/delta")
                                   (RequestException "connection reset"));
                       CommittedTo 2];
            written := None;
            ended := Traceback (OSError "No such file or directory") |}.
Proof. vm_compute. reflexivity. Qed.

(** X24. With two arguments and every membership page served as an
    array of records that have an id, a path and a last activity that is
    a str or missing, when the report file cannot be opened for writing
    (as for a user name with a slash) the script dies with the error of
    [open] after both stages have run: the count of matches is the last
    line printed, no file is written and no "Saved to" line appears. *)
Theorem script_open_error :
  forall (prog token username : string)
         (environ : string -> option string)
         (open_file : string -> result unit)
         (server : dict -> request -> http_result)
         (order1 : list (future (nat * pyobj)) -> list (future (nat * pyobj)))
         (order2 : list (pyobj * future bool) -> list (pyobj * future bool))
         (items : nat -> list pyobj) (e : exn),
    (forall l, Permutation (order1 l) l) ->
    (forall l, Permutation (order2 l) l) ->
    (forall p, (1 <= p <= MAX_PAGES)%nat ->
               serves (server [("PRIVATE-TOKEN", PyStr token)])
                 (membership_url (api_base environ)) membership_params p
                 (items p)) ->
    Forall (fun q => is_project q = true) (flat_map items (seq 1 MAX_PAGES)) ->
    Forall str_or_missing (flat_map items (seq 1 MAX_PAGES)) ->
    open_file (report_file username) = Raise e ->
    exists err,
      script prog [token; username] environ open_file server order1 order2
      = Some {| stdout := [];
                stderr :=
                  err ++ [CommittedTo
                            (List.length
                               (filter (probe_true
                                          (server [("PRIVATE-TOKEN", PyStr token)])
                                          (api_base environ) username)
                                  (flat_map items (seq 1 MAX_PAGES))))];
                written := None;
                ended := Traceback e |}.
Proof.
  intros prog token username environ open_file server order1 order2 items e
    Hp1 Hp2 Hserv Hwf Hstr Hopen.
  set (http := server [("PRIVATE-TOKEN", PyStr token)]) in *.
  set (base := api_base environ) in *.
  destruct (script_pages_served http order1 (membership_url base)
              membership_params items Hp1 Hserv)
    as (log1 & all_projects & Hfetch & Hall).
  apply (Permutation_Forall (Permutation_sym Hall)) in Hwf.
  destruct (probe_all_run http base username order2 all_projects Hp2 Hwf)
    as (log2 & Hprobe & _).
  set (matched := map fst (filter future_true
                             (order2 (map (fun p => (p, project_future http base username p))
                                        all_projects)))) in *.
  assert (Hm : Permutation matched
                 (filter (probe_true http base username)
                    (flat_map items (seq 1 MAX_PAGES)))).
  { transitivity (filter (probe_true http base username) all_projects).
    - destruct (filter_futures http base username all_projects) as [<- _].
      apply Permutation_map, filter_perm, Hp2.
    - apply filter_perm, Hall. }
  destruct (sort_committed_sorted matched) as (sorted & Hsort & _).
  { apply (Permutation_Forall (Permutation_sym Hm)).
    apply Forall_forall. intros q Hq. apply filter_In in Hq as [Hq _].
    rewrite Forall_forall in Hstr. apply str_or_missing_key, Hstr, Hq. }
  exists ((Fetching :: map Progress log1
           ++ [Total (List.length all_projects); Checking])
          ++ map Progress log2).
  unfold script. fold http. fold base. rewrite Hfetch, Hprobe.
  cbn [committed]. fold matched. rewrite Hsort, Hopen.
  rewrite (Permutation_length Hm), <- app_assoc. reflexivity.
Qed.

Lemma script_open_error_witness :
  exists err,
    script "gitlabprojects.py" ["glpat-demo"; "a/b"] no_environ open_flat
      gitlab_demo (@rev _) (@rev _)
    = Some {| stdout := [];
              stderr :=
                err ++ [CommittedTo
                          (List.length
                             (filter (probe_true
                                        (gitlab_demo
                                           [("PRIVATE-TOKEN", PyStr "glpat-demo")])
                                        (api_base no_environ) "a/b")
                                (flat_map demo_pages (seq 1 MAX_PAGES))))];
              written := None;
              ended := Traceback (OSError "No such file or directory") |}.
Proof.
  apply (script_open_error "gitlabprojects.py" "glpat-demo" "a/b" no_environ
           open_flat gitlab_demo (@rev _) (@rev _) demo_pages
           (OSError "No such file or directory")).
  - intro l. apply rev_perm.
  - intro l. apply rev_perm.
  - apply gitlab_demo_serves.
  - rewrite demo_pages_all. repeat constructor.
  - rewrite demo_pages_all.
    repeat (constructor;
            [eexists; first [apply activity_present; reflexivity
                            | apply activity_missing; reflexivity]|]).
    constructor.
  - reflexivity.
Defined.
